(** * ContractLens: clause risk classification and precedent retrieval

    A shallow embedding of [app/risk_engine.py] and [app/precedent_agent.py]
    with the data classes of [app/models.py] they use.

    - Python [str] values are sequences of Unicode code points.
    - The three imported service functions ([get_embedding],
      [search_precedents], [call_gemini_json]) talk to remote services; they
      are parameters of the model: computations that read and change an
      abstract state of the outside world and either return or raise.
    - Exceptions are values of [exn]; a raising computation keeps the state
      of the world it reached. *)

From Stdlib Require Import ZArith NArith List String Ascii Bool Lia.
From Stdlib Require Import DecimalString.
From Stdlib Require Import SpecFloat.
Import ListNotations.

Set Implicit Arguments.
Set Warnings "-notation-for-abbreviation".

(* ===================================================================== *)
(** ** Python strings *)
(* ===================================================================== *)

(** A code point. *)
Definition char := N.

(** A Python [str]. *)
Definition str := list char.

(** A string literal of the source (all of them are ASCII). *)
Definition lit (s : string) : str := map N_of_ascii (list_ascii_of_string s).

Definition nl : str := [10%N].
Definition dq : str := [34%N].

(** [a == b] on strings. *)
Fixpoint str_eqb (a b : str) : bool :=
  match a, b with
  | [], [] => true
  | x :: a', y :: b' => N.eqb x y && str_eqb a' b'
  | _, _ => false
  end.

(** [s.startswith(p)]. *)
Fixpoint startswith (p s : str) : bool :=
  match p, s with
  | [], _ => true
  | x :: p', y :: s' => N.eqb x y && startswith p' s'
  | _ :: _, [] => false
  end.

(** [needle in hay] for strings: [needle] occurs at some offset of [hay]. *)
Fixpoint contains (needle hay : str) : bool :=
  startswith needle hay
  || match hay with
     | [] => false
     | _ :: hay' => contains needle hay'
     end.

(** The meaning of [in]: a contiguous occurrence. *)
Definition Substring (needle hay : str) : Prop :=
  exists before after, hay = before ++ needle ++ after.

(** [sep.join(parts)]. *)
Fixpoint join (sep : str) (parts : list str) : str :=
  match parts with
  | [] => []
  | [p] => p
  | p :: rest => p ++ sep ++ join sep rest
  end.

(** A triple-quoted literal whose text starts on the line after the opening
    quotes and whose closing quotes stand on a line of their own. *)
Definition triple_quoted (lines : list str) : str :=
  nl ++ List.concat (map (fun l => l ++ nl) lines).

(** [str(n)] and [repr(n)] of an [int]. *)
Definition str_of_int (n : Z) : str := lit (NilZero.string_of_int (Z.to_int n)).

(** [str.lower] on ASCII text: the letters A-Z move to a-z, every other
    code point below 128 stays.  The classifier takes the lowering function
    as a parameter; this one instantiates it for examples. *)
Definition ascii_lower_char (c : char) : char :=
  if (65 <=? c)%N && (c <=? 90)%N then (c + 32)%N else c.

Definition ascii_lower (s : str) : str := map ascii_lower_char s.

(* ===================================================================== *)
(** ** Values *)
(* ===================================================================== *)

Definition float := spec_float.

(** What [json.loads] and a Qdrant payload can hold. A [dict] keeps its
    items in insertion order; lookup takes the first item with the key. *)
#[warnings="-register-all"]
Inductive pyval : Type :=
| PNone
| PBool (b : bool)
| PInt (n : Z)
| PFloat (f : float)
| PStr (s : str)
| PList (l : list pyval)
| PDict (d : list (str * pyval)).

(** The exceptions the modelled code meets. *)
Inductive exn : Type :=
| KeyError (key : str)            (* d[k] with k absent *)
| TypeError                       (* subscript of a value that is no dict *)
| AttributeError                  (* .get of a value that is no dict *)
| ValidationError (model : str)   (* pydantic refuses the fields of a model *)
| ServiceError (msg : str).       (* raised inside an external service *)

Inductive result (A : Type) : Type :=
| Ok (a : A)
| Raise (e : exn).
Arguments Raise {A} e.

(** Lookup in an insertion-ordered dict. *)
Fixpoint dict_lookup {V : Type} (d : list (str * V)) (k : str) : option V :=
  match d with
  | [] => None
  | (k', v) :: d' => if str_eqb k' k then Some v else dict_lookup d' k
  end.

(** [d.get(k, default)]. *)
Definition dict_get {V : Type} (d : list (str * V)) (k : str) (default : V) : V :=
  match dict_lookup d k with
  | Some v => v
  | None => default
  end.

(** [raw[k]] on a value. *)
Definition getitem (raw : pyval) (k : str) : result pyval :=
  match raw with
  | PDict d =>
      match dict_lookup d k with
      | Some v => Ok v
      | None => Raise (KeyError k)
      end
  | _ => Raise TypeError
  end.

(** [raw.get(k, default)] on a value. *)
Definition get_method (raw : pyval) (k : str) (default : pyval) : result pyval :=
  match raw with
  | PDict d => Ok (dict_get d k default)
  | _ => Raise AttributeError
  end.

(* ===================================================================== *)
(** ** app/models.py *)
(* ===================================================================== *)

Module Clause.
Record t : Type := make {
  label : str;
  raw_text : str;
  start_char : option Z;
  end_char : option Z
}.
End Clause.

Module PrecedentClause.
Record t : Type := make {
  id : str;
  clause_type : str;
  text : str;
  risk_level : str;
  jurisdiction : option str;
  contract_type : option str
}.
End PrecedentClause.

Module ClauseAnalysis.
Record t : Type := make {
  clause_label : str;
  risk_level : str;
  explanation : str;
  suggested_text : str;
  precedent_snippets : list str
}.
End ClauseAnalysis.

(** Field validation of pydantic 2 (the repository calls [model_dump]) on
    the values above: a [str] field takes a string, an [Optional[str]] field
    a string or [None], a [List[str]] field a list of strings. *)
Definition as_str (v : pyval) : option str :=
  match v with
  | PStr s => Some s
  | _ => None
  end.

Definition as_optional_str (v : pyval) : option (option str) :=
  match v with
  | PNone => Some None
  | PStr s => Some (Some s)
  | _ => None
  end.

Fixpoint all_str (l : list pyval) : option (list str) :=
  match l with
  | [] => Some []
  | v :: l' =>
      match as_str v, all_str l' with
      | Some s, Some ss => Some (s :: ss)
      | _, _ => None
      end
  end.

Definition as_list_str (v : pyval) : option (list str) :=
  match v with
  | PList l => all_str l
  | _ => None
  end.

(** [PrecedentClause(id=..., clause_type=..., contract_type=...,
    risk_level=..., jurisdiction=..., text=...)]. *)
Definition new_PrecedentClause (id : str)
    (clause_type contract_type risk_level jurisdiction text : pyval)
  : result PrecedentClause.t :=
  match as_str clause_type, as_optional_str contract_type, as_str risk_level,
        as_optional_str jurisdiction, as_str text with
  | Some ty, Some ct, Some rl, Some j, Some tx =>
      Ok (PrecedentClause.make id ty tx rl j ct)
  | _, _, _, _, _ => Raise (ValidationError (lit "PrecedentClause"))
  end.

(** [ClauseAnalysis(clause_label=..., risk_level=..., explanation=...,
    suggested_text=..., precedent_snippets=...)]. *)
Definition new_ClauseAnalysis (clause_label : str)
    (risk_level explanation suggested_text precedent_snippets : pyval)
  : result ClauseAnalysis.t :=
  match as_str risk_level, as_str explanation, as_str suggested_text,
        as_list_str precedent_snippets with
  | Some rl, Some ex, Some st, Some ps =>
      Ok (ClauseAnalysis.make clause_label rl ex st ps)
  | _, _, _, _ => Raise (ValidationError (lit "ClauseAnalysis"))
  end.

(** A hit of the vector index ([qdrant_client]'s [ScoredPoint]), with the two
    fields the code reads. *)
Inductive PointId : Type :=
| IdInt (n : Z)
| IdStr (s : str).

Record ScoredPoint : Type := {
  hit_id : PointId;
  payload : option (list (str * pyval))
}.

(** [str(hit.id)]. *)
Definition str_of_id (i : PointId) : str :=
  match i with
  | IdInt n => str_of_int n
  | IdStr s => s
  end.

(** [hit.payload or {}]: [None] and the empty dict are both falsy. *)
Definition payload_or_empty (p : option (list (str * pyval))) : list (str * pyval) :=
  match p with
  | None => []
  | Some [] => []
  | Some d => d
  end.

(* ===================================================================== *)
(** ** app/risk_engine.py: the playbook *)
(* ===================================================================== *)

(** A value of a playbook rule: a number or a list of strings. *)
Inductive rule_value : Type :=
| RInt (n : Z)
| RStrs (l : list str).

Definition PlaybookRule := list (str * rule_value).

Definition PLAYBOOK : list (str * PlaybookRule) :=
  [ (lit "limitation_of_liability",
      [ (lit "max_cap_months", RInt 12);
        (lit "allow_unlimited_for",
           RStrs [lit "death_or_personal_injury"; lit "fraud"]);
        (lit "disallow_exclusions",
           RStrs [lit "gross_negligence"; lit "wilful_misconduct"]) ]);
    (lit "governing_law",
      [ (lit "preferred", RStrs [lit "England and Wales"]);
        (lit "discouraged", RStrs []);
        (lit "forbidden", RStrs []) ]);
    (lit "termination",
      [ (lit "min_notice_days", RInt 30) ]) ].

(** [PLAYBOOK.get(label, {})]. *)
Definition playbook_for (label : str) : PlaybookRule := dict_get PLAYBOOK label [].

(** [repr] of a string that has no quote, backslash or control character:
    the text between single quotes.  Only keys and values of [PLAYBOOK] are
    ever formatted, and all of them are such strings. *)
Definition repr_str (s : str) : str := lit "'" ++ s ++ lit "'".

(** The strings [repr_str] is exact on: printable ASCII without quotes and
    backslash. *)
Definition plain_char (c : char) : bool :=
  (32 <=? c)%N && (c <? 127)%N
  && negb (c =? 39)%N && negb (c =? 34)%N && negb (c =? 92)%N.

Definition plain (s : str) : bool := forallb plain_char s.

(** The strings of a rule: its keys and the strings of its values. *)
Definition rule_strings (r : PlaybookRule) : list str :=
  flat_map (fun kv => fst kv :: match snd kv with
                                | RInt _ => []
                                | RStrs l => l
                                end) r.

Definition repr_value (v : rule_value) : str :=
  match v with
  | RInt n => str_of_int n
  | RStrs l => lit "[" ++ join (lit ", ") (map repr_str l) ++ lit "]"
  end.

(** [f"{playbook}"]: the [repr] of the dict. *)
Definition repr_rule (r : PlaybookRule) : str :=
  lit "{"
  ++ join (lit ", ") (map (fun kv => repr_str (fst kv) ++ lit ": " ++ repr_value (snd kv)) r)
  ++ lit "}".

Definition q (s : string) : str := dq ++ lit s ++ dq.

Definition RISK_SYSTEM : str :=
  triple_quoted
    [ lit "You are a conservative contract risk reviewer.";
      lit "Given a specific clause, a playbook, a risk profile, and some model precedents,";
      lit "assign a risk level and suggest a better clause.";
      [];
      lit "Return ONLY JSON matching this schema:";
      [];
      lit "{";
      lit "  " ++ q "risk_level" ++ lit ": " ++ q "GREEN" ++ lit " | " ++ q "AMBER"
        ++ lit " | " ++ q "RED" ++ lit ",";
      lit "  " ++ q "explanation" ++ lit ": " ++ q "short explanation" ++ lit ",";
      lit "  " ++ q "suggested_text" ++ lit ": "
        ++ q "improved clause text, in similar style" ++ lit ",";
      lit "  " ++ q "precedent_snippets" ++ lit ": [" ++ q "short snippet 1" ++ lit ", "
        ++ q "short snippet 2" ++ lit "]";
      lit "}";
      [];
      lit "Rules:";
      lit "- " ++ q "GREEN" ++ lit " means broadly OK for a conservative customer.";
      lit "- " ++ q "AMBER" ++ lit " means acceptable but with some concerns.";
      lit "- " ++ q "RED" ++ lit " means high-risk and should be renegotiated.";
      lit "- Use the playbook and the rule-based preliminary risk as strong signals.";
      lit "- Use the precedent clauses as models of better wording where useful." ].

Definition GREEN : str := lit "GREEN".
Definition AMBER : str := lit "AMBER".
Definition RED : str := lit "RED".

Section Classifier.

(** [str.lower]. *)
Variable lower : str -> str.

Definition basic_rules_risk (clause : Clause.t) (playbook : PlaybookRule)
    (risk_profile : str) : str :=
  let label := Clause.label clause in
  let text := lower (Clause.raw_text clause) in
  if str_eqb label (lit "limitation_of_liability") then
    if contains (lit "unlimited") text
       && negb (contains (lit "death") text)
       && negb (contains (lit "personal injury") text)
    then RED
    else if contains (lit "cap") text
            || contains (lit "maximum") text
            || contains (lit "shall not exceed") text
    then AMBER
    else RED
  else if str_eqb label (lit "governing_law") then
    if contains (lit "england") text && contains (lit "wales") text
    then GREEN
    else AMBER
  else if str_eqb label (lit "termination") then
    if contains (lit "immediate") text && contains (lit "any reason") text
    then RED
    else if contains (lit "days") text || contains (lit "months") text
    then AMBER
    else AMBER
  else AMBER.

End Classifier.

(* ===================================================================== *)
(** ** Computations that call external services *)
(* ===================================================================== *)

(** A computation over a world [W]: from the state of the world to a value or
    an exception, and the state of the world reached. *)
Definition M (W A : Type) : Type := W -> result A * W.

Definition ret {W A : Type} (a : A) : M W A := fun w => (Ok a, w).

Definition bind {W A B : Type} (m : M W A) (k : A -> M W B) : M W B :=
  fun w =>
    match m w with
    | (Ok a, w') => k a w'
    | (Raise e, w') => (Raise e, w')
    end.

(** A step that does not touch the world. *)
Definition lift {W A : Type} (r : result A) : M W A := fun w => (r, w).

Declare Scope py_scope.
Delimit Scope py_scope with py.
Notation "x <- m ;; k" := (bind m (fun x => k))
  (at level 61, m at next level, right associativity) : py_scope.
Local Open Scope py_scope.

(** The monadic map: run [f] on each element in order, collect the values,
    stop at the first exception. *)
Fixpoint mapM {W A B : Type} (f : A -> M W B) (l : list A) : M W (list B) :=
  match l with
  | [] => ret []
  | a :: l' =>
      b <- f a ;;
      bs <- mapM f l' ;;
      ret (b :: bs)
  end.

(* ===================================================================== *)
(** ** Sample worlds, for running the model *)
(* ===================================================================== *)

(** The state of these worlds counts the service calls made so far. *)
Definition constant_embedding (v : list float) : str -> M nat (list float) :=
  fun _ w => (Ok v, S w).

Definition failing_embedding (msg : str) : str -> M nat (list float) :=
  fun _ w => (Raise (ServiceError msg), S w).

Definition constant_search (hits : list ScoredPoint)
  : list float -> str -> str -> Z -> M nat (list ScoredPoint) :=
  fun _ _ _ _ w => (Ok hits, S w).

Definition constant_completion (raw : pyval) : str -> str -> M nat pyval :=
  fun _ _ w => (Ok raw, S w).

(** A completion service that fails on the prompts in which [needle] occurs. *)
Definition completion_failing_on (needle : str) (raw : pyval)
  : str -> str -> M nat pyval :=
  fun _ user_prompt w =>
    if contains needle user_prompt
    then (Raise (ServiceError (lit "Gemini did not return valid JSON")), S w)
    else (Ok raw, S w).

Definition sample_response : pyval :=
  PDict [ (lit "risk_level", PStr (lit "AMBER"));
          (lit "explanation", PStr (lit "Foreign law."));
          (lit "suggested_text", PStr (lit "English law applies."));
          (lit "precedent_snippets", PList [PStr (lit "laws of England and Wales")]) ].


Definition response_without_explanation : pyval :=
  PDict [ (lit "risk_level", PStr (lit "RED"));
          (lit "suggested_text", PStr (lit "Liability shall not exceed the Fees.")) ].

Definition sample_hit : ScoredPoint :=
  {| hit_id := IdInt 3;
     payload := Some [ (lit "clause_type", PStr (lit "governing_law"));
                       (lit "contract_type", PStr (lit "saas"));
                       (lit "risk_level", PStr (lit "medium"));
                       (lit "jurisdiction", PStr (lit "New York"));
                       (lit "text", PStr (lit "governed by the laws of the State of New York"));
                       (lit "precedent_id", PStr (lit "govlaw_newyork_1")) ] |}.

Definition termination_clause : Clause.t :=
  Clause.make (lit "termination")
    (lit "The Supplier may terminate with immediate effect for any reason.") None None.

Definition governing_law_clause : Clause.t :=
  Clause.make (lit "governing_law")
    (lit "This Agreement is governed by the laws of England and Wales.") (Some 120%Z) (Some 181%Z).

Definition liability_clause : Clause.t :=
  Clause.make (lit "limitation_of_liability")
    (lit "The Supplier shall have no liability, unlimited, to the Customer...") None None.

Definition ip_clause : Clause.t :=
  Clause.make (lit "ip") (lit "All intellectual property remains with the Supplier.") None None.

(* ===================================================================== *)
(** ** app/precedent_agent.py and app/risk_engine.py: the pipeline *)
(* ===================================================================== *)

Section Pipeline.

(** The state of the outside world (the embedding service, the vector
    index, the completion service). *)
Variable World : Type.

(** [str.lower]. *)
Variable lower : str -> str.

(** [gemini_client.get_embedding(text)]. *)
Variable get_embedding : str -> M World (list float).

(** [qdrant_client.search_precedents(vector, clause_type, contract_type, limit)]. *)
Variable search_precedents : list float -> str -> str -> Z -> M World (list ScoredPoint).

(** [gemini_client.call_gemini_json(system_instruction, user_prompt)]. *)
Variable call_gemini_json : str -> str -> M World pyval.

(** The body of [for hit in hits], one hit. *)
Definition precedent_of_hit (hit : ScoredPoint) : result PrecedentClause.t :=
  let payload := payload_or_empty (payload hit) in
  new_PrecedentClause
    (str_of_id (hit_id hit))
    (dict_get payload (lit "clause_type") (PStr []))
    (dict_get payload (lit "contract_type") PNone)
    (dict_get payload (lit "risk_level") (PStr []))
    (dict_get payload (lit "jurisdiction") PNone)
    (dict_get payload (lit "text") (PStr [])).

(** The loop [for hit in hits: results.append(PrecedentClause(...))]. *)
Fixpoint collect_precedents (hits : list ScoredPoint)
    (results : list PrecedentClause.t) : M World (list PrecedentClause.t) :=
  match hits with
  | [] => ret results
  | hit :: hits' =>
      p <- lift (precedent_of_hit hit) ;;
      collect_precedents hits' (results ++ [p])
  end.

Definition get_precedents_for_clause (clause_text clause_type contract_type : str)
    (limit : Z) : M World (list PrecedentClause.t) :=
  emb <- get_embedding clause_text ;;
  hits <- search_precedents emb clause_type contract_type limit ;;
  collect_precedents hits [].

(** ["\n\n".join(f"- [{p.risk_level}] {p.text}" for p in precedents)]. *)
Definition precedents_text (precedents : list PrecedentClause.t) : str :=
  join (nl ++ nl)
    (map (fun p => lit "- [" ++ PrecedentClause.risk_level p ++ lit "] "
                   ++ PrecedentClause.text p)
         precedents).

(** The f-string [user_prompt]. *)
Definition user_prompt (clause : Clause.t) (risk_profile rule_risk : str)
    (playbook : PlaybookRule) (precedents_text : str) : str :=
  nl ++ lit "Clause label: " ++ Clause.label clause
  ++ nl ++ lit "Risk profile: " ++ risk_profile
  ++ nl ++ lit "Rule-based preliminary risk: " ++ rule_risk
  ++ nl
  ++ nl ++ lit "Playbook for this clause type:"
  ++ nl ++ repr_rule playbook
  ++ nl
  ++ nl ++ lit "Actual contract clause:"
  ++ nl ++ lit "<clause>"
  ++ nl ++ Clause.raw_text clause
  ++ nl ++ lit "</clause>"
  ++ nl
  ++ nl ++ lit "Relevant precedent clauses:"
  ++ nl ++ precedents_text
  ++ nl
  ++ nl ++ lit "Return strictly the JSON schema specified in the system instruction."
  ++ nl.

(** The keys of the response that [analyse_clause] subscripts. *)
Definition required_keys : list str :=
  [lit "risk_level"; lit "explanation"; lit "suggested_text"].

(** The [return ClauseAnalysis(...)] of [analyse_clause]: the arguments
    are evaluated in the order they are written, then the model is
    validated. *)
Definition analysis_of_response (clause : Clause.t) (raw : pyval)
  : result ClauseAnalysis.t :=
  match getitem raw (lit "risk_level") with
  | Raise e => Raise e
  | Ok risk_level =>
      match getitem raw (lit "explanation") with
      | Raise e => Raise e
      | Ok explanation =>
          match getitem raw (lit "suggested_text") with
          | Raise e => Raise e
          | Ok suggested_text =>
              match get_method raw (lit "precedent_snippets") (PList []) with
              | Raise e => Raise e
              | Ok precedent_snippets =>
                  new_ClauseAnalysis (Clause.label clause) risk_level explanation
                    suggested_text precedent_snippets
              end
          end
      end
  end.

(** [analyse_clause] from the line after the retrieval to its end. *)
Definition synthesise (clause : Clause.t) (risk_profile : str)
    (playbook : PlaybookRule) (rule_risk : str)
    (precedents : list PrecedentClause.t) : M World ClauseAnalysis.t :=
  let precedents_text := precedents_text precedents in
  let user_prompt := user_prompt clause risk_profile rule_risk playbook precedents_text in
  raw <- call_gemini_json RISK_SYSTEM user_prompt ;;
  lift (analysis_of_response clause raw).

Definition analyse_clause (clause : Clause.t) (contract_type risk_profile : str)
  : M World ClauseAnalysis.t :=
  let playbook := playbook_for (Clause.label clause) in
  let rule_risk := basic_rules_risk lower clause playbook risk_profile in
  precedents <- get_precedents_for_clause (Clause.raw_text clause)
                  (Clause.label clause) contract_type 3 ;;
  synthesise clause risk_profile playbook rule_risk precedents.

(** [label in {"limitation_of_liability", "governing_law", "termination"}]. *)
Definition is_tracked (label : str) : bool :=
  str_eqb label (lit "limitation_of_liability")
  || str_eqb label (lit "governing_law")
  || str_eqb label (lit "termination").

(** The loop of [analyse_clauses], from the clauses left and the list
    [analyses] built so far. *)
Fixpoint analyse_loop (clauses : list Clause.t) (contract_type risk_profile : str)
    (analyses : list ClauseAnalysis.t) : M World (list ClauseAnalysis.t) :=
  match clauses with
  | [] => ret analyses
  | c :: clauses' =>
      if is_tracked (Clause.label c) then
        a <- analyse_clause c contract_type risk_profile ;;
        analyse_loop clauses' contract_type risk_profile (analyses ++ [a])
      else analyse_loop clauses' contract_type risk_profile analyses
  end.

Definition analyse_clauses (clauses : list Clause.t) (contract_type risk_profile : str)
  : M World (list ClauseAnalysis.t) :=
  analyse_loop clauses contract_type risk_profile [].

End Pipeline.

(* ===================================================================== *)
(** ** Sample runs *)
(* ===================================================================== *)

Definition saas : str := lit "saas".
Definition conservative : str := lit "conservative".

(** A world whose completion service fails on termination clauses. *)
Definition flaky_completion : str -> str -> M nat pyval :=
  completion_failing_on (lit "Clause label: termination") sample_response.

Definition flaky_analyse : Clause.t -> str -> str -> M nat ClauseAnalysis.t :=
  analyse_clause ascii_lower (constant_embedding []) (constant_search [sample_hit])
    flaky_completion.

Definition flaky_batch : list Clause.t -> str -> str -> M nat (list ClauseAnalysis.t) :=
  analyse_clauses ascii_lower (constant_embedding []) (constant_search [sample_hit])
    flaky_completion.

(** A world whose embedding service is down. *)
Definition embedding_down : str -> M nat (list float) :=
  failing_embedding (lit "embedding service unavailable").

Definition embedding_down_analyse : Clause.t -> str -> str -> M nat ClauseAnalysis.t :=
  analyse_clause ascii_lower embedding_down (constant_search [sample_hit])
    (constant_completion sample_response).

(** A world whose index has no precedent for any filter. *)
Definition empty_index_analyse : Clause.t -> str -> str -> M nat ClauseAnalysis.t :=
  analyse_clause ascii_lower (constant_embedding []) (constant_search [])
    (constant_completion sample_response).

Definition service_failure : exn :=
  ServiceError (lit "Gemini did not return valid JSON").

Definition governing_law_verdict : ClauseAnalysis.t :=
  ClauseAnalysis.make (lit "governing_law") (lit "AMBER") (lit "Foreign law.")
    (lit "English law applies.") [lit "laws of England and Wales"].

(* ===================================================================== *)
(** ** Counting the service calls *)
(* ===================================================================== *)

(** How often each service has been called. *)
Record calls : Type := {
  embedding_calls : nat;
  search_calls : nat;
  completion_calls : nat
}.

Definition no_calls : calls :=
  {| embedding_calls := 0; search_calls := 0; completion_calls := 0 |}.

(** A world that also counts: every service does what it did and adds one to
    its counter, whether it returns or raises. *)
Definition counted_embedding {W : Type} (get_embedding : str -> M W (list float))
  : str -> M (W * calls) (list float) :=
  fun text wk =>
    let (r, w') := get_embedding text (fst wk) in
    (r, (w', {| embedding_calls := S (embedding_calls (snd wk));
                search_calls := search_calls (snd wk);
                completion_calls := completion_calls (snd wk) |})).

Definition counted_search {W : Type}
    (search_precedents : list float -> str -> str -> Z -> M W (list ScoredPoint))
  : list float -> str -> str -> Z -> M (W * calls) (list ScoredPoint) :=
  fun vector clause_type contract_type limit wk =>
    let (r, w') := search_precedents vector clause_type contract_type limit (fst wk) in
    (r, (w', {| embedding_calls := embedding_calls (snd wk);
                search_calls := S (search_calls (snd wk));
                completion_calls := completion_calls (snd wk) |})).

Definition counted_completion {W : Type} (call_gemini_json : str -> str -> M W pyval)
  : str -> str -> M (W * calls) pyval :=
  fun system_instruction user_prompt wk =>
    let (r, w') := call_gemini_json system_instruction user_prompt (fst wk) in
    (r, (w', {| embedding_calls := embedding_calls (snd wk);
                search_calls := search_calls (snd wk);
                completion_calls := S (completion_calls (snd wk)) |})).

(* ===================================================================== *)
(** ** app/gemini_client.py: the shapes of an embedding response *)
(* ===================================================================== *)

(** How [get_embedding] fails on a response: the [IndexError] of
    [embed_resp[0]], or one of its [RuntimeError]s, told apart by their
    message. *)
Inductive embedding_error : Type :=
| IndexError
| UnexpectedDictFormat          (* "Unexpected embedding dict format" *)
| UnexpectedListFormat          (* "Unexpected embedding list format" *)
| CompletelyUnexpectedFormat.   (* "Completely unexpected embedding response format" *)

(** [emb["values"]] when [isinstance(emb, dict) and "values" in emb]. *)
Definition values_of (emb : pyval) : option pyval :=
  match emb with
  | PDict e => dict_lookup e (lit "values")
  | _ => None
  end.

(** [get_embedding] from the line after the call of [genai.embed_content], on
    a response that is plain data: a dict, a list or a scalar.  None of these
    has an attribute [embedding], so on a list [first.embedding.values]
    raises (and is reported as a list format error) and on a scalar the third
    case falls through to the last [raise]. *)
Definition embedding_of_response (embed_resp : pyval) : pyval + embedding_error :=
  match embed_resp with
  | PDict d =>
      let maybe_embedding := dict_get d (lit "embedding") PNone in
      match maybe_embedding with
      | PList _ => inl maybe_embedding
      | _ =>
          match values_of maybe_embedding with
          | Some v => inl v
          | None =>
              match dict_get d (lit "data") PNone with
              | PList (PDict first :: _) =>
                  match values_of (dict_get first (lit "embedding") PNone) with
                  | Some v => inl v
                  | None => inr UnexpectedDictFormat
                  end
              | _ => inr UnexpectedDictFormat
              end
          end
      end
  | PList [] => inr IndexError
  | PList (PDict first :: _) =>
      let emb := dict_get first (lit "embedding") PNone in
      match emb with
      | PList _ => inl emb
      | _ =>
          match values_of emb with
          | Some v => inl v
          | None => inr UnexpectedListFormat
          end
      end
  | PList (_ :: _) => inr UnexpectedListFormat
  | _ => inr CompletelyUnexpectedFormat
  end.

(* ===================================================================== *)
(** ** app/qdrant_client.py *)
(* ===================================================================== *)

Definition EMBEDDING_DIM : Z := 768.

Inductive Distance : Type := COSINE | EUCLID | DOT | MANHATTAN.

(** [FieldCondition(key=..., match=MatchValue(value=...))]. *)
Record FieldCondition : Type := {
  key : str;
  match_value : str
}.

(** [Filter(must=[...])]. *)
Record Filter : Type := {
  must : list FieldCondition
}.

Record PointStruct : Type := {
  point_id : PointId;
  point_vector : list float;
  point_payload : list (str * pyval)
}.

(** [try: body except Exception: pass]. *)
Definition try_pass {W A : Type} (body : M W A) : M W unit :=
  fun w =>
    match body w with
    | (Ok _, w') => (Ok tt, w')
    | (Raise _, w') => (Ok tt, w')
    end.

Section Qdrant.

Variable World : Type.

(** [settings.qdrant_collection]. *)
Variable qdrant_collection : str.

(** [client.get_collections().collections], by name. *)
Variable client_get_collections : M World (list str).

(** [client.create_collection(collection_name, VectorParams(size, distance))]. *)
Variable client_create_collection : str -> Z -> Distance -> M World unit.

(** [client.create_payload_index(collection_name, field_name, field_schema)]. *)
Variable client_create_payload_index : str -> str -> str -> M World unit.

(** [client.upsert(collection_name, points)]. *)
Variable client_upsert : str -> list PointStruct -> M World unit.

(** [client.search(collection_name, query_vector, query_filter, limit)]. *)
Variable client_search : str -> list float -> Filter -> Z -> M World (list ScoredPoint).

(** The loop [for field in (...)] of [ensure_collection]. *)
Fixpoint ensure_indexes (fields : list str) : M World unit :=
  match fields with
  | [] => ret tt
  | field :: fields' =>
      _ <- try_pass (client_create_payload_index qdrant_collection field (lit "keyword")) ;;
      ensure_indexes fields'
  end.

Definition ensure_collection : M World unit :=
  names <- client_get_collections ;;
  _ <- (if negb (existsb (str_eqb qdrant_collection) names)
        then client_create_collection qdrant_collection EMBEDDING_DIM COSINE
        else ret tt) ;;
  ensure_indexes [lit "clause_type"; lit "contract_type"].

Definition add_precedents (points : list PointStruct) : M World unit :=
  client_upsert qdrant_collection points.

Definition search_precedents (vector : list float) (clause_type contract_type : str)
    (limit : Z) : M World (list ScoredPoint) :=
  let qfilter :=
    {| must := [ {| key := lit "clause_type"; match_value := clause_type |};
                 {| key := lit "contract_type"; match_value := contract_type |} ] |} in
  client_search qdrant_collection vector qfilter limit.

End Qdrant.

(* ===================================================================== *)
(** ** app/precedents_seed.py *)
(* ===================================================================== *)

(** An item of [RAW_PRECEDENTS]: a dict of six strings. *)
Module RawPrecedent.
Record t : Type := make {
  id : str;
  clause_type : str;
  contract_type : str;
  risk_level : str;
  jurisdiction : str;
  text : str
}.
End RawPrecedent.

(** The payload of the point built from an item. *)
Definition seed_payload (item : RawPrecedent.t) : list (str * pyval) :=
  [ (lit "clause_type", PStr (RawPrecedent.clause_type item));
    (lit "contract_type", PStr (RawPrecedent.contract_type item));
    (lit "risk_level", PStr (RawPrecedent.risk_level item));
    (lit "jurisdiction", PStr (RawPrecedent.jurisdiction item));
    (lit "text", PStr (RawPrecedent.text item));
    (lit "precedent_id", PStr (RawPrecedent.id item)) ].

Section Seed.

Variable World : Type.
Variable get_embedding : str -> M World (list float).
Variable ensure_collection : M World unit.
Variable add_precedents : list PointStruct -> M World unit.

(** The loop [for idx, item in enumerate(RAW_PRECEDENTS)] of [main], from the
    items left, the index of the first of them and the points built so far. *)
Fixpoint build_points (items : list RawPrecedent.t) (idx : Z)
    (points : list PointStruct) : M World (list PointStruct) :=
  match items with
  | [] => ret points
  | item :: items' =>
      emb <- get_embedding (RawPrecedent.text item) ;;
      build_points items' (idx + 1)%Z
        (points ++ [ {| point_id := IdInt idx;
                        point_vector := emb;
                        point_payload := seed_payload item |} ])
  end.

(** [main], over the list of raw precedents (the [print]s left out). *)
Definition seed_main (RAW_PRECEDENTS : list RawPrecedent.t) : M World unit :=
  _ <- ensure_collection ;;
  points <- build_points RAW_PRECEDENTS 0%Z [] ;;
  add_precedents points.

End Seed.

(** The hit that the index returns for a stored point. *)
Definition hit_of_point (p : PointStruct) : ScoredPoint :=
  {| hit_id := point_id p; payload := Some (point_payload p) |}.

(* ===================================================================== *)
(** ** app/models.py: the contract and the report *)
(* ===================================================================== *)

(** A [datetime.date]. *)
Record date : Type := {
  year : Z;
  month : Z;
  day : Z
}.

Module ExtractedContract.
Record t : Type := make {
  parties : list str;
  effective_date : option date;
  term_months : option Z;
  auto_renewal : option bool;
  governing_law : option str;
  contract_type : option str;
  clauses : list Clause.t
}.
End ExtractedContract.

Module ContractAnalysis.
Record t : Type := make {
  summary : str;
  key_terms : list (str * pyval);
  clauses : list ClauseAnalysis.t
}.
End ContractAnalysis.

Module AnalyzeResponse.
Record t : Type := make {
  analysis : ContractAnalysis.t
}.
End AnalyzeResponse.

(** What [model_dump] gives: plain data, and [date] objects left as they are. *)
#[warnings="-register-all"]
Inductive dumpval : Type :=
| VNone
| VBool (b : bool)
| VInt (n : Z)
| VStr (s : str)
| VDate (d : date)
| VList (l : list dumpval)
| VDict (d : list (str * dumpval)).

Definition dump_option {A : Type} (f : A -> dumpval) (o : option A) : dumpval :=
  match o with
  | None => VNone
  | Some a => f a
  end.

(** [clause.model_dump()]. *)
Definition dump_clause (c : Clause.t) : dumpval :=
  VDict [ (lit "label", VStr (Clause.label c));
          (lit "raw_text", VStr (Clause.raw_text c));
          (lit "start_char", dump_option VInt (Clause.start_char c));
          (lit "end_char", dump_option VInt (Clause.end_char c)) ].

(** [extracted.model_dump()]. *)
Definition model_dump (x : ExtractedContract.t) : dumpval :=
  VDict [ (lit "parties", VList (map VStr (ExtractedContract.parties x)));
          (lit "effective_date", dump_option VDate (ExtractedContract.effective_date x));
          (lit "term_months", dump_option VInt (ExtractedContract.term_months x));
          (lit "auto_renewal", dump_option VBool (ExtractedContract.auto_renewal x));
          (lit "governing_law", dump_option VStr (ExtractedContract.governing_law x));
          (lit "contract_type", dump_option VStr (ExtractedContract.contract_type x));
          (lit "clauses", VList (map dump_clause (ExtractedContract.clauses x))) ].

(** Whether a [date] sits somewhere in the value: the one kind of object here
    that [json.dumps] cannot serialise. *)
Fixpoint has_date (v : dumpval) : bool :=
  match v with
  | VDate _ => true
  | VList l => existsb has_date l
  | VDict d => existsb (fun kv => has_date (snd kv)) d
  | _ => false
  end.

(** [ContractAnalysis(summary=..., key_terms=..., clauses=...)]: [summary] is
    a [str] field, [key_terms] a [dict] field; the clause analyses are model
    instances already. *)
Definition new_ContractAnalysis (summary key_terms : pyval)
    (clauses : list ClauseAnalysis.t) : result ContractAnalysis.t :=
  match summary, key_terms with
  | PStr s, PDict k => Ok (ContractAnalysis.make s k clauses)
  | _, _ => Raise (ValidationError (lit "ContractAnalysis"))
  end.

(** [a or b] on an optional string: [None] and the empty string are falsy. *)
Definition or_str (a : option str) (b : str) : str :=
  match a with
  | None => b
  | Some [] => b
  | Some s => s
  end.

(* ===================================================================== *)
(** ** app/extraction_agent.py *)
(* ===================================================================== *)

Definition EXTRACTION_SYSTEM : str :=
  triple_quoted
    [ lit "You are a contract analysis engine.";
      lit "Extract structured key terms and clauses from the contract text.";
      lit "Return ONLY valid JSON matching this schema (do not include any extra keys):";
      [];
      lit "{";
      lit "  " ++ q "parties" ++ lit ": [" ++ q "Party A Ltd" ++ lit ", " ++ q "Party B Ltd"
        ++ lit "],";
      lit "  " ++ q "effective_date" ++ lit ": " ++ q "YYYY-MM-DD or null" ++ lit ",";
      lit "  " ++ q "term_months" ++ lit ": 12,";
      lit "  " ++ q "auto_renewal" ++ lit ": true,";
      lit "  " ++ q "governing_law" ++ lit ": " ++ q "England and Wales" ++ lit ",";
      lit "  " ++ q "contract_type" ++ lit ": " ++ q "saas" ++ lit " | " ++ q "services"
        ++ lit " | " ++ q "employment" ++ lit " | null,";
      lit "  " ++ q "clauses" ++ lit ": [";
      lit "    {";
      lit "      " ++ q "label" ++ lit ": " ++ q "limitation_of_liability" ++ lit " | "
        ++ q "termination" ++ lit " | " ++ q "governing_law" ++ lit " | " ++ q "ip"
        ++ lit " | " ++ q "other" ++ lit ",";
      lit "      " ++ q "raw_text" ++ lit ": " ++ q "exact clause text from the contract"
        ++ lit ",";
      lit "      " ++ q "start_char" ++ lit ": 123,";
      lit "      " ++ q "end_char" ++ lit ": 456";
      lit "    }";
      lit "  ]";
      lit "}";
      [];
      lit "Rules:";
      lit "- If you are not sure about a value, use null (or [] for lists).";
      lit "- " ++ q "term_months"
        ++ lit " should be an integer number of months if you can infer it, otherwise null.";
      lit "- " ++ q "auto_renewal" ++ lit " should be true, false or null.";
      lit "- " ++ q "governing_law" ++ lit " should be a simple string like "
        ++ q "England and Wales" ++ lit " if you can extract it.";
      lit "- " ++ q "contract_type" ++ lit " should be a best guess: " ++ q "saas" ++ lit ", "
        ++ q "services" ++ lit ", or " ++ q "employment" ++ lit ", or null if unclear.";
      lit "- For clauses, include at least any limitation of liability, termination, and governing law clauses if present.";
      lit "- " ++ q "start_char" ++ lit " and " ++ q "end_char"
        ++ lit " are offsets into the provided contract text string; if you cannot compute them reliably, use null." ].

(** The bound of [contract_text[:15000]]. *)
Definition MAX_CONTRACT_CHARS : nat := N.to_nat 15000.

(** [_build_user_prompt]. *)
Definition build_user_prompt (contract_text : str) : str :=
  let truncated := firstn MAX_CONTRACT_CHARS contract_text in
  nl ++ lit "Contract text:"
  ++ nl ++ lit "<contract>"
  ++ nl ++ truncated
  ++ nl ++ lit "</contract>"
  ++ nl
  ++ nl ++ lit "Return ONLY the JSON object as described. Do not include any commentary or Markdown."
  ++ nl.

Section Extraction.

Variable World : Type.

(** [gemini_client.call_gemini_json]. *)
Variable call_gemini_json : str -> str -> M World pyval.

(** The call of [ExtractedContract] on the unpacked [raw]: pydantic's
    validation of the whole contract, with the [TypeError] of the unpacking
    of a value that is no mapping. *)
Variable new_ExtractedContract : pyval -> result ExtractedContract.t.

(** [str(e)] of an exception and [json.dumps(raw)] of a parsed value. *)
Variable str_of_exception : exn -> str.
Variable json_dumps_raw : pyval -> str.

(** The f-string [fix_prompt]. *)
Definition fix_prompt (e : exn) (raw : pyval) : str :=
  nl ++ lit "The following JSON had validation errors in my schema: "
     ++ str_of_exception e ++ lit "."
  ++ nl
  ++ nl ++ lit "Here is the JSON you produced:"
  ++ nl ++ json_dumps_raw raw
  ++ nl
  ++ nl ++ lit "Please return corrected JSON that strictly matches the schema in the system instruction."
  ++ nl ++ lit "Return ONLY the corrected JSON object."
  ++ nl.

Definition extract_contract (contract_text : str) : M World ExtractedContract.t :=
  let user_prompt := build_user_prompt contract_text in
  raw <- call_gemini_json EXTRACTION_SYSTEM user_prompt ;;
  match new_ExtractedContract raw with
  | Ok extracted => ret extracted
  | Raise e =>
      let fix_prompt := fix_prompt e raw in
      fixed_raw <- call_gemini_json EXTRACTION_SYSTEM fix_prompt ;;
      lift (new_ExtractedContract fixed_raw)
  end.

End Extraction.

(** A world that counts the completion calls only. *)
Definition counting_completion {W : Type} (call_gemini_json : str -> str -> M W pyval)
  : str -> str -> M (W * nat) pyval :=
  fun system_instruction user_prompt wn =>
    let (r, w') := call_gemini_json system_instruction user_prompt (fst wn) in
    (r, (w', S (snd wn))).

(* ===================================================================== *)
(** ** app/report_agent.py *)
(* ===================================================================== *)

Definition SUMMARY_SYSTEM : str :=
  triple_quoted
    [ lit "You help SME founders understand contracts.";
      [];
      lit "Given:";
      lit "- structured contract data, and";
      lit "- clause analyses with risk levels,";
      [];
      lit "produce a concise summary and a simple key_terms dict.";
      [];
      lit "Return ONLY JSON like:";
      [];
      lit "{";
      lit "  " ++ q "summary" ++ lit ": "
        ++ q "string, 3-6 sentences, plain English, non-technical" ++ lit ",";
      lit "  " ++ q "key_terms" ++ lit ": {";
      lit "    " ++ q "parties" ++ lit ": [" ++ q "A" ++ lit ", " ++ q "B" ++ lit "],";
      lit "    " ++ q "governing_law" ++ lit ": " ++ q "England and Wales" ++ lit ",";
      lit "    " ++ q "term_months" ++ lit ": 12,";
      lit "    " ++ q "auto_renewal" ++ lit ": true,";
      lit "    " ++ q "headline_risk" ++ lit ": "
        ++ q "e.g. 'Liability very supplier-friendly; termination OK'" ++ lit ",";
      lit "    " ++ q "flags" ++ lit ": [" ++ q "short list of key issues" ++ lit "]";
      lit "  }";
      lit "}";
      [];
      lit "Rules:";
      lit "- summary: 3" ++ [8211%N]
        ++ lit "6 sentences max, no bullet points, clear and non-legalistic.";
      lit "- key_terms: keep it simple; you can reuse fields from the structured data.";
      lit "- " ++ q "flags"
        ++ lit " should be a short list of the main risk issues (based on clause analyses)." ].

(** An item of [clause_summaries]. *)
Definition clause_summary (c : ClauseAnalysis.t) : dumpval :=
  VDict [ (lit "clause_label", VStr (ClauseAnalysis.clause_label c));
          (lit "risk_level", VStr (ClauseAnalysis.risk_level c));
          (lit "explanation", VStr (ClauseAnalysis.explanation c)) ].

(** The f-string [user_prompt] of [build_contract_analysis]. *)
Definition report_prompt (extracted_json clause_summaries_json : str) : str :=
  nl ++ lit "Structured contract data (JSON):"
  ++ nl ++ extracted_json
  ++ nl
  ++ nl ++ lit "Clause analyses (label + risk + explanation):"
  ++ nl ++ clause_summaries_json
  ++ nl
  ++ nl ++ lit "Return ONLY the JSON object specified in the system instruction."
  ++ nl.

Section Report.

Variable World : Type.

(** [gemini_client.call_gemini_json]. *)
Variable call_gemini_json : str -> str -> M World pyval.

(** The text [json.dumps(v, indent=2)] gives for a value it can serialise. *)
Variable json_text : dumpval -> str.

(** [json.dumps(v, indent=2)]: a [date] inside makes it raise [TypeError]. *)
Definition json_dumps (v : dumpval) : result str :=
  if has_date v then Raise TypeError else Ok (json_text v).

Definition build_contract_analysis (extracted : ExtractedContract.t)
    (clause_analyses : list ClauseAnalysis.t) : M World ContractAnalysis.t :=
  let clause_summaries := map clause_summary clause_analyses in
  extracted_json <- lift (json_dumps (model_dump extracted)) ;;
  clause_summaries_json <- lift (json_dumps (VList clause_summaries)) ;;
  let user_prompt := report_prompt extracted_json clause_summaries_json in
  raw <- call_gemini_json SUMMARY_SYSTEM user_prompt ;;
  summary <- lift (get_method raw (lit "summary") (PStr [])) ;;
  key_terms <- lift (get_method raw (lit "key_terms") (PDict [])) ;;
  lift (new_ContractAnalysis summary key_terms clause_analyses).

End Report.

(* ===================================================================== *)
(** ** app/main.py: the endpoint [/analyze] *)
(* ===================================================================== *)

Section Analyze.

Variable World : Type.

(** An uploaded file, and [ingestion.extract_contract_text]. *)
Variable UploadFile : Type.
Variable extract_contract_text : UploadFile -> M World str.

Variable lower : str -> str.
Variable get_embedding : str -> M World (list float).
Variable search_precedents : list float -> str -> str -> Z -> M World (list ScoredPoint).
Variable call_gemini_json : str -> str -> M World pyval.
Variable new_ExtractedContract : pyval -> result ExtractedContract.t.
Variable str_of_exception : exn -> str.
Variable json_dumps_raw : pyval -> str.
Variable json_text : dumpval -> str.

Definition analyze (file : UploadFile) (contract_type risk_profile : str)
  : M World AnalyzeResponse.t :=
  raw_text <- extract_contract_text file ;;
  extracted <- extract_contract call_gemini_json new_ExtractedContract
                 str_of_exception json_dumps_raw raw_text ;;
  let final_contract_type := or_str (ExtractedContract.contract_type extracted) contract_type in
  clause_analyses <- analyse_clauses lower get_embedding search_precedents call_gemini_json
                       (ExtractedContract.clauses extracted) final_contract_type
                       risk_profile ;;
  report <- build_contract_analysis call_gemini_json json_text extracted clause_analyses ;;
  ret (AnalyzeResponse.make report).

End Analyze.

(* ===================================================================== *)
(** ** More sample data *)
(* ===================================================================== *)

Definition sample_precedent : PrecedentClause.t :=
  PrecedentClause.make (lit "3") (lit "governing_law")
    (lit "governed by the laws of the State of New York") (lit "medium")
    (Some (lit "New York")) (Some (lit "saas")).

(** A hit whose text is a number. *)
Definition bad_hit : ScoredPoint :=
  {| hit_id := IdInt 0; payload := Some [(lit "text", PInt 4)] |}.

(** A response whose snippets are null. *)
Definition response_with_null_snippets : pyval :=
  PDict [ (lit "risk_level", PStr (lit "RED"));
          (lit "explanation", PStr (lit "No cap."));
          (lit "suggested_text", PStr (lit "Liability shall not exceed the Fees."));
          (lit "precedent_snippets", PNone) ].

(** The three services of the flaky world, counted. *)
Definition counted_flaky_batch
  : list Clause.t -> str -> str -> M (nat * calls) (list ClauseAnalysis.t) :=
  analyse_clauses ascii_lower (counted_embedding (constant_embedding []))
    (counted_search (constant_search [sample_hit]))
    (counted_completion flaky_completion).

(** A vector index that lists one collection and refuses every index. *)
Definition listing_collections : M nat (list str) :=
  fun w => (Ok [lit "contract_precedents"], S w).

Definition creating_collection : str -> Z -> Distance -> M nat unit :=
  fun _ _ _ w => (Ok tt, S w).

Definition failing_creation : str -> Z -> Distance -> M nat unit :=
  fun _ _ _ w => (Raise (ServiceError (lit "cannot create")), S w).

Definition failing_index : str -> str -> str -> M nat unit :=
  fun _ _ _ w => (Raise (ServiceError (lit "index exists")), S w).

Definition two_raw_precedents : list RawPrecedent.t :=
  [ RawPrecedent.make (lit "govlaw_england_wales_1") (lit "governing_law") (lit "saas")
      (lit "low") (lit "England and Wales") (lit "governed by the laws of England and Wales");
    RawPrecedent.make (lit "govlaw_newyork_1") (lit "governing_law") (lit "saas")
      (lit "medium") (lit "New York") (lit "governed by the laws of the State of New York") ].

(** A contract text of 15000 characters. *)
Definition long_text : str := repeat 97%N MAX_CONTRACT_CHARS.

Definition undated_contract : ExtractedContract.t :=
  ExtractedContract.make [lit "Supplier Ltd"; lit "Customer Ltd"] None (Some 12%Z)
    (Some true) (Some (lit "England and Wales")) (Some []) [ip_clause; governing_law_clause].

Definition dated_contract : ExtractedContract.t :=
  ExtractedContract.make [lit "Supplier Ltd"; lit "Customer Ltd"]
    (Some {| year := 2024; month := 1; day := 31 |}) (Some 12%Z)
    (Some true) (Some (lit "England and Wales")) (Some (lit "saas"))
    [ip_clause; governing_law_clause].

(** A contract model that refuses every value, and one that takes any. *)
Definition refusing_model : pyval -> result ExtractedContract.t :=
  fun _ => Raise (ValidationError (lit "ExtractedContract")).

Definition accepting_model : pyval -> result ExtractedContract.t :=
  fun _ => Ok undated_contract.

Definition sample_str_of_exception : exn -> str := fun _ => lit "1 validation error".
Definition sample_json_dumps_raw : pyval -> str := fun _ => lit "[]".
Definition sample_json_text : dumpval -> str := fun _ => lit "{}".

Definition reading_upload : unit -> M nat str :=
  fun _ w => (Ok (lit "This Agreement is governed by the laws of England and Wales."), S w).

Definition sample_report : ContractAnalysis.t :=
  ContractAnalysis.make [] [] [governing_law_verdict].

Definition sample_endpoint : unit -> str -> str -> M nat AnalyzeResponse.t :=
  analyze reading_upload ascii_lower (constant_embedding []) (constant_search [sample_hit])
    (constant_completion sample_response) accepting_model sample_str_of_exception
    sample_json_dumps_raw sample_json_text.

Unset Implicit Arguments.

(* ===================================================================== *)
(** ** Strings: the boolean tests mean what they say *)
(* ===================================================================== *)

Lemma str_eqb_eq (a b : str) : str_eqb a b = true <-> a = b.
Proof.
  revert b; induction a as [|x a IH]; intros [|y b]; simpl;
    try (split; [discriminate | discriminate]); try tauto.
  rewrite andb_true_iff, N.eqb_eq, IH.
  split; [intros [-> ->]; reflexivity | intros H; inversion H; auto].
Qed.

Lemma str_eqb_refl (a : str) : str_eqb a a = true.
Proof. apply str_eqb_eq; reflexivity. Qed.

Lemma str_eqb_neq (a b : str) : str_eqb a b = false <-> a <> b.
Proof.
  rewrite <- str_eqb_eq. destruct (str_eqb a b); split; intros; congruence.
Qed.

Lemma startswith_spec (p s : str) :
  startswith p s = true <-> exists rest, s = p ++ rest.
Proof.
  revert s; induction p as [|x p IH]; intros s; simpl.
  - split; [intros _; exists s; reflexivity | reflexivity].
  - destruct s as [|y s].
    + split; [discriminate | intros [r H]; discriminate].
    + rewrite andb_true_iff, N.eqb_eq, IH. split.
      * intros [-> [r ->]]. exists r; reflexivity.
      * intros [r H]. inversion H; subst. split; [reflexivity | exists r; reflexivity].
Qed.

Lemma contains_spec (needle hay : str) :
  contains needle hay = true <-> Substring needle hay.
Proof.
  unfold Substring. induction hay as [|c hay IH].
  - simpl. rewrite orb_false_r, startswith_spec. split.
    + intros [r H]. exists [], r. exact H.
    + intros [b [a H]]. destruct b as [|x b]; [exists a; exact H | discriminate].
  - cbn [contains]. rewrite orb_true_iff, startswith_spec, IH. split.
    + intros [[r H] | [b [a H]]].
      * exists [], r. exact H.
      * exists (c :: b), a. rewrite H. reflexivity.
    + intros [b [a H]]. destruct b as [|x b].
      * left. exists a. exact H.
      * right. inversion H; subst. exists b, a. reflexivity.
Qed.

Lemma contains_false (needle hay : str) :
  contains needle hay = false <-> ~ Substring needle hay.
Proof.
  rewrite <- contains_spec. destruct (contains needle hay); split; intros; congruence.
Qed.

(** A boolean test decides its proposition. *)
Lemma Substring_dec (needle hay : str) : {Substring needle hay} + {~ Substring needle hay}.
Proof.
  destruct (contains needle hay) eqn:E.
  - left. apply contains_spec. exact E.
  - right. apply contains_false. exact E.
Qed.

(* ===================================================================== *)
(** ** The deterministic classifier *)
(* ===================================================================== *)

Lemma tiers_distinct : GREEN <> AMBER /\ AMBER <> RED /\ GREEN <> RED.
Proof. repeat split; discriminate. Qed.

Section ClassifierFacts.

Variable lower : str -> str.

(** C4: for a limitation_of_liability clause the tier is RED when the
    lower-cased text contains "unlimited" and neither "death" nor
    "personal injury"; otherwise AMBER when it contains "cap", "maximum" or
    "shall not exceed"; otherwise RED. *)
Theorem limitation_of_liability_tier (clause : Clause.t) (playbook : PlaybookRule)
    (risk_profile : str) :
  Clause.label clause = lit "limitation_of_liability" ->
  let text := lower (Clause.raw_text clause) in
  let risk := basic_rules_risk lower clause playbook risk_profile in
  let bare_unlimited :=
    Substring (lit "unlimited") text
    /\ ~ Substring (lit "death") text
    /\ ~ Substring (lit "personal injury") text in
  let cap_language :=
    Substring (lit "cap") text
    \/ Substring (lit "maximum") text
    \/ Substring (lit "shall not exceed") text in
  (bare_unlimited -> risk = RED)
  /\ (~ bare_unlimited -> cap_language -> risk = AMBER)
  /\ (~ bare_unlimited -> ~ cap_language -> risk = RED).
Proof.
  intros Hl text risk bare cap. subst risk bare cap.
  unfold basic_rules_risk. rewrite Hl, str_eqb_refl. fold text.
  rewrite <- !contains_spec.
  destruct (contains (lit "unlimited") text),
           (contains (lit "death") text),
           (contains (lit "personal injury") text),
           (contains (lit "cap") text),
           (contains (lit "maximum") text),
           (contains (lit "shall not exceed") text); cbn [andb orb negb];
    repeat split; intros; try reflexivity; try tauto;
    try (exfalso; intuition congruence).
Qed.

(** C5: for a governing_law clause the tier is GREEN exactly when the
    lower-cased text contains both "england" and "wales", and AMBER in
    every other case. *)
Theorem governing_law_tier (clause : Clause.t) (playbook : PlaybookRule)
    (risk_profile : str) :
  Clause.label clause = lit "governing_law" ->
  let text := lower (Clause.raw_text clause) in
  let risk := basic_rules_risk lower clause playbook risk_profile in
  let english := Substring (lit "england") text /\ Substring (lit "wales") text in
  (risk = GREEN <-> english) /\ (~ english -> risk = AMBER).
Proof.
  intros Hl text risk english. subst risk english.
  unfold basic_rules_risk. rewrite Hl.
  replace (str_eqb (lit "governing_law") (lit "limitation_of_liability"))
    with false by reflexivity.
  rewrite str_eqb_refl. fold text.
  rewrite <- !contains_spec.
  destruct (contains (lit "england") text), (contains (lit "wales") text);
    cbn [andb]; repeat split; intros; try reflexivity; try tauto;
    try (exfalso; intuition congruence);
    try (exfalso; match goal with H : AMBER = GREEN |- _ => discriminate H end).
Qed.

(** C6: for a termination clause the tier is RED when the lower-cased text
    contains both "immediate" and "any reason", and AMBER in every other
    case, whether or not "days" or "months" occurs. *)
Theorem termination_tier (clause : Clause.t) (playbook : PlaybookRule)
    (risk_profile : str) :
  Clause.label clause = lit "termination" ->
  let text := lower (Clause.raw_text clause) in
  let risk := basic_rules_risk lower clause playbook risk_profile in
  let at_will := Substring (lit "immediate") text /\ Substring (lit "any reason") text in
  (at_will -> risk = RED) /\ (~ at_will -> risk = AMBER).
Proof.
  intros Hl text risk at_will. subst risk at_will.
  unfold basic_rules_risk. rewrite Hl.
  replace (str_eqb (lit "termination") (lit "limitation_of_liability"))
    with false by reflexivity.
  replace (str_eqb (lit "termination") (lit "governing_law"))
    with false by reflexivity.
  rewrite str_eqb_refl. fold text.
  rewrite <- !contains_spec.
  destruct (contains (lit "immediate") text), (contains (lit "any reason") text);
    cbn [andb]; split; intros;
    try (destruct (contains (lit "days") text || contains (lit "months") text));
    try reflexivity; try tauto; exfalso; intuition congruence.
Qed.

(** C9: the tier depends on the label and the raw text of the clause only:
    neither the playbook, nor the risk profile, nor the character offsets
    of the clause can change it. *)
Theorem basic_rules_risk_reads_label_and_text (c1 c2 : Clause.t)
    (playbook1 playbook2 : PlaybookRule) (risk_profile1 risk_profile2 : str) :
  Clause.label c1 = Clause.label c2 ->
  Clause.raw_text c1 = Clause.raw_text c2 ->
  basic_rules_risk lower c1 playbook1 risk_profile1
  = basic_rules_risk lower c2 playbook2 risk_profile2.
Proof.
  intros Hl Ht. unfold basic_rules_risk. rewrite Hl, Ht. reflexivity.
Qed.

(** The tier is one of the three. *)
Lemma basic_rules_risk_range (c : Clause.t) (playbook : PlaybookRule) (risk_profile : str) :
  In (basic_rules_risk lower c playbook risk_profile) [GREEN; AMBER; RED].
Proof.
  unfold basic_rules_risk.
  repeat match goal with
         | |- context [if ?b then _ else _] => destruct b
         end; simpl; auto.
Qed.

End ClassifierFacts.

(* ===================================================================== *)
(** ** The playbook registry *)
(* ===================================================================== *)

Lemma is_tracked_spec (label : str) :
  is_tracked label = true
  <-> label = lit "limitation_of_liability"
      \/ label = lit "governing_law"
      \/ label = lit "termination".
Proof.
  unfold is_tracked. rewrite !orb_true_iff, !str_eqb_eq. tauto.
Qed.

(** Every string that the prompt formats with [repr_str] is plain. *)
Lemma PLAYBOOK_strings_plain (label : str) :
  forallb plain (rule_strings (playbook_for label)) = true.
Proof.
  unfold playbook_for, dict_get, PLAYBOOK, dict_lookup.
  repeat match goal with
         | |- context [if ?b then _ else _] => destruct b
         end; reflexivity.
Qed.

(** C8: the lookup of the playbook is a total function of the label: each of
    the three registered labels gets its rule, and every other label gets
    the empty rule; no label makes it fail. *)
Theorem playbook_lookup_total :
  playbook_for (lit "limitation_of_liability")
  = [ (lit "max_cap_months", RInt 12);
      (lit "allow_unlimited_for", RStrs [lit "death_or_personal_injury"; lit "fraud"]);
      (lit "disallow_exclusions", RStrs [lit "gross_negligence"; lit "wilful_misconduct"]) ]
  /\ playbook_for (lit "governing_law")
     = [ (lit "preferred", RStrs [lit "England and Wales"]);
         (lit "discouraged", RStrs []);
         (lit "forbidden", RStrs []) ]
  /\ playbook_for (lit "termination") = [ (lit "min_notice_days", RInt 30) ]
  /\ (forall label,
        label <> lit "limitation_of_liability" ->
        label <> lit "governing_law" ->
        label <> lit "termination" ->
        dict_lookup PLAYBOOK label = None /\ playbook_for label = []).
Proof.
  repeat split; try reflexivity;
    unfold playbook_for, dict_get, PLAYBOOK, dict_lookup;
    rewrite (proj2 (str_eqb_neq _ _)), (proj2 (str_eqb_neq _ _)), (proj2 (str_eqb_neq _ _));
    try reflexivity; apply not_eq_sym; assumption.
Qed.

(* ===================================================================== *)
(** ** Running computations *)
(* ===================================================================== *)

Lemma bind_ok {W A B : Type} {m : M W A} (k : A -> M W B) {w w' : W} {a : A} :
  m w = (Ok a, w') -> bind m k w = k a w'.
Proof. intros H. unfold bind. rewrite H. reflexivity. Qed.

Lemma bind_raise {W A B : Type} {m : M W A} (k : A -> M W B) {w w' : W} {e : exn} :
  m w = (Raise e, w') -> bind m k w = (Raise e, w').
Proof. intros H. unfold bind. rewrite H. reflexivity. Qed.

Lemma bind_inv_ok {W A B : Type} {m : M W A} {k : A -> M W B} {w w' : W} {b : B} :
  bind m k w = (Ok b, w') ->
  exists a w1, m w = (Ok a, w1) /\ k a w1 = (Ok b, w').
Proof.
  unfold bind. destruct (m w) as [[a|e] w1]; intros H.
  - exists a, w1. split; [reflexivity | exact H].
  - discriminate H.
Qed.

Section PipelineFacts.

Variable World : Type.
Variable lower : str -> str.
Variable get_embedding : str -> M World (list float).
Variable search_precedents : list float -> str -> str -> Z -> M World (list ScoredPoint).
Variable call_gemini_json : str -> str -> M World pyval.

Local Notation retrieve :=
  (get_precedents_for_clause get_embedding search_precedents).
Local Notation analyse :=
  (analyse_clause lower get_embedding search_precedents call_gemini_json).
Local Notation batch :=
  (analyse_clauses lower get_embedding search_precedents call_gemini_json).
Local Notation loop :=
  (analyse_loop lower get_embedding search_precedents call_gemini_json).
Local Notation rule_risk c risk_profile :=
  (basic_rules_risk lower c (playbook_for (Clause.label c)) risk_profile).
Local Notation prompt c risk_profile precedents :=
  (user_prompt c risk_profile (rule_risk c risk_profile)
     (playbook_for (Clause.label c)) (precedents_text precedents)).

(** *** One clause *)

(** Once the precedents are there, the clause analysis is one completion
    call and the construction of the verdict from its response. *)
Lemma analyse_clause_run (c : Clause.t) (contract_type risk_profile : str)
    (w w1 w2 : World) (precedents : list PrecedentClause.t) (r : result pyval) :
  retrieve (Clause.raw_text c) (Clause.label c) contract_type 3%Z w = (Ok precedents, w1) ->
  call_gemini_json RISK_SYSTEM (prompt c risk_profile precedents) w1 = (r, w2) ->
  analyse c contract_type risk_profile w
  = (match r with
     | Ok raw => analysis_of_response c raw
     | Raise e => Raise e
     end, w2).
Proof.
  intros Hp Hc. unfold analyse_clause.
  rewrite (bind_ok _ Hp). unfold synthesise, bind. rewrite Hc.
  destruct r; reflexivity.
Qed.

Lemma analysis_of_response_label (c : Clause.t) (raw : pyval) (a : ClauseAnalysis.t) :
  analysis_of_response c raw = Ok a -> ClauseAnalysis.clause_label a = Clause.label c.
Proof.
  unfold analysis_of_response, new_ClauseAnalysis.
  destruct (getitem raw (lit "risk_level")) as [v1|]; [|discriminate].
  destruct (getitem raw (lit "explanation")) as [v2|]; [|discriminate].
  destruct (getitem raw (lit "suggested_text")) as [v3|]; [|discriminate].
  destruct (get_method raw (lit "precedent_snippets") (PList [])) as [v4|]; [|discriminate].
  destruct (as_str v1), (as_str v2), (as_str v3), (as_list_str v4); try discriminate.
  intros H. inversion H. reflexivity.
Qed.

(** A verdict carries the label of its clause. *)
Lemma analyse_clause_label (c : Clause.t) (contract_type risk_profile : str)
    (w w' : World) (a : ClauseAnalysis.t) :
  analyse c contract_type risk_profile w = (Ok a, w') ->
  ClauseAnalysis.clause_label a = Clause.label c.
Proof.
  unfold analyse_clause. intros H.
  apply bind_inv_ok in H. destruct H as [ps [w1 [_ H]]].
  unfold synthesise in H. apply bind_inv_ok in H. destruct H as [raw [w2 [_ H]]].
  unfold lift in H. inversion H. eapply analysis_of_response_label; eassumption.
Qed.

(** *** The batch *)

(** The list built so far is a prefix of what the loop returns. *)
Lemma analyse_loop_acc (cs : list Clause.t) (contract_type risk_profile : str)
    (acc : list ClauseAnalysis.t) (w : World) :
  loop cs contract_type risk_profile acc w
  = match loop cs contract_type risk_profile [] w with
    | (Ok vs, w') => (Ok (acc ++ vs), w')
    | (Raise e, w') => (Raise e, w')
    end.
Proof.
  revert acc w. induction cs as [|c cs IH]; intros acc w; simpl.
  - unfold ret. rewrite app_nil_r. reflexivity.
  - destruct (is_tracked (Clause.label c)); [|apply IH].
    unfold bind. destruct (analyse c contract_type risk_profile w) as [[a|e] w1];
      [|reflexivity].
    rewrite (IH (acc ++ [a])), (IH ([] ++ [a])).
    destruct (loop cs contract_type risk_profile [] w1) as [[vs|e] w2]; [|reflexivity].
    rewrite <- app_assoc. reflexivity.
Qed.

(** The loop over a concatenation: the second part starts from the list and
    the world the first part leaves. *)
Lemma analyse_loop_app (pre post : list Clause.t) (contract_type risk_profile : str)
    (acc : list ClauseAnalysis.t) (w : World) :
  loop (pre ++ post) contract_type risk_profile acc w
  = bind (loop pre contract_type risk_profile acc)
         (fun acc' => loop post contract_type risk_profile acc') w.
Proof.
  revert acc w. induction pre as [|c pre IH]; intros acc w; simpl.
  - reflexivity.
  - destruct (is_tracked (Clause.label c)); [|apply IH].
    unfold bind.
    destruct (analyse c contract_type risk_profile w) as [[a|e] w1]; [|reflexivity].
    apply IH.
Qed.

Lemma mapM_labels (cs : list Clause.t) (contract_type risk_profile : str)
    (w w' : World) (vs : list ClauseAnalysis.t) :
  mapM (fun c => analyse c contract_type risk_profile) cs w = (Ok vs, w') ->
  map ClauseAnalysis.clause_label vs = map Clause.label cs.
Proof.
  revert w vs. induction cs as [|c cs IH]; intros w vs H; simpl in H.
  - inversion H. reflexivity.
  - apply bind_inv_ok in H. destruct H as [a [w1 [Ha H]]].
    apply bind_inv_ok in H. destruct H as [bs [w2 [Hbs H]]].
    inversion H; subst. simpl. f_equal.
    + eapply analyse_clause_label; eassumption.
    + eapply IH; eassumption.
Qed.

(** C7: the batch is the sequence of the analyses of the clauses with a
    tracked label, taken in the order of the input; a clause with any other
    label contributes nothing: no verdict, no service call, no error.  In
    particular the labels of the verdicts returned are the tracked labels
    of the input, in order. *)
Theorem analyse_clauses_filters_in_order (clauses : list Clause.t)
    (contract_type risk_profile : str) (w : World) :
  let tracked := filter (fun c => is_tracked (Clause.label c)) clauses in
  batch clauses contract_type risk_profile w
  = mapM (fun c => analyse c contract_type risk_profile) tracked w
  /\ (forall vs w',
        batch clauses contract_type risk_profile w = (Ok vs, w') ->
        map ClauseAnalysis.clause_label vs = map Clause.label tracked).
Proof.
  intros tracked.
  assert (E : batch clauses contract_type risk_profile w
              = mapM (fun c => analyse c contract_type risk_profile) tracked w).
  { subst tracked. unfold analyse_clauses. revert w.
    induction clauses as [|c cs IH]; intros w; simpl.
    - reflexivity.
    - destruct (is_tracked (Clause.label c)); [|apply IH].
      simpl. unfold bind at 1 2.
      destruct (analyse c contract_type risk_profile w) as [[a|e] w1]; [|reflexivity].
      rewrite analyse_loop_acc, IH. unfold bind, ret.
      destruct (mapM _ _ w1) as [[vs|e] w2]; reflexivity. }
  split; [exact E|].
  intros vs w' H. rewrite E in H. eapply mapM_labels; eassumption.
Qed.

(** C1 (as the code has it): an error raised by the analysis of one tracked
    clause ends the batch with that error, in the state of the world that
    analysis left: the verdicts of the clauses before it are dropped and
    the clauses after it are not analysed. *)
Theorem clause_failure_ends_batch (before after : list Clause.t) (c : Clause.t)
    (contract_type risk_profile : str) (w w1 w2 : World)
    (vs : list ClauseAnalysis.t) (e : exn) :
  batch before contract_type risk_profile w = (Ok vs, w1) ->
  is_tracked (Clause.label c) = true ->
  analyse c contract_type risk_profile w1 = (Raise e, w2) ->
  batch (before ++ c :: after) contract_type risk_profile w = (Raise e, w2).
Proof.
  intros Hb Ht Hc. unfold analyse_clauses in *.
  rewrite analyse_loop_app. rewrite (bind_ok _ Hb).
  simpl. rewrite Ht. apply bind_raise. exact Hc.
Qed.

(** *** Retrieval *)

Lemma retrieval_raises_with_embedding (clause_text clause_type contract_type : str)
    (limit : Z) (w w' : World) (e : exn) :
  get_embedding clause_text w = (Raise e, w') ->
  retrieve clause_text clause_type contract_type limit w = (Raise e, w').
Proof. intros H. unfold get_precedents_for_clause. apply bind_raise. exact H. Qed.

Lemma retrieval_raises_with_search (clause_text clause_type contract_type : str)
    (limit : Z) (w w1 w' : World) (emb : list float) (e : exn) :
  get_embedding clause_text w = (Ok emb, w1) ->
  search_precedents emb clause_type contract_type limit w1 = (Raise e, w') ->
  retrieve clause_text clause_type contract_type limit w = (Raise e, w').
Proof.
  intros H1 H2. unfold get_precedents_for_clause.
  rewrite (bind_ok _ H1). apply bind_raise. exact H2.
Qed.


(** C2 (as the code has it): when the embedding call or the query of the
    vector index raises, the clause analysis raises the same error, in the
    state of the world the failed call left: the completion service is not
    called and no verdict is built. *)
Theorem retrieval_failure_ends_clause_analysis (c : Clause.t)
    (contract_type risk_profile : str) (w w' : World) (e : exn) :
  get_embedding (Clause.raw_text c) w = (Raise e, w')
  \/ (exists emb w1,
        get_embedding (Clause.raw_text c) w = (Ok emb, w1)
        /\ search_precedents emb (Clause.label c) contract_type 3%Z w1 = (Raise e, w')) ->
  retrieve (Clause.raw_text c) (Clause.label c) contract_type 3%Z w = (Raise e, w')
  /\ analyse c contract_type risk_profile w = (Raise e, w').
Proof.
  intros H.
  assert (R : retrieve (Clause.raw_text c) (Clause.label c) contract_type 3%Z w
              = (Raise e, w')).
  { destruct H as [H | [emb [w1 [H1 H2]]]].
    - apply retrieval_raises_with_embedding. exact H.
    - eapply retrieval_raises_with_search; eassumption. }
  split; [exact R|].
  unfold analyse_clause. apply bind_raise. exact R.
Qed.


(** *** The verdict from the response *)

(** The first of the three subscripted keys that the response lacks. *)
Lemma missing_key_raises (c : Clause.t) (d : list (str * pyval)) (k : str) :
  In k required_keys ->
  dict_lookup d k = None ->
  exists k', In k' required_keys
             /\ dict_lookup d k' = None
             /\ analysis_of_response c (PDict d) = Raise (KeyError k').
Proof.
  intros Hin Hk. unfold analysis_of_response, getitem, required_keys in *.
  destruct (dict_lookup d (lit "risk_level")) as [v1|] eqn:E1;
    [|exists (lit "risk_level"); simpl; auto].
  destruct (dict_lookup d (lit "explanation")) as [v2|] eqn:E2;
    [|exists (lit "explanation"); simpl; auto].
  destruct (dict_lookup d (lit "suggested_text")) as [v3|] eqn:E3;
    [|exists (lit "suggested_text"); simpl; auto].
  exfalso. simpl in Hin. destruct Hin as [<- | [<- | [<- | []]]]; congruence.
Qed.

(** C10: with the response of the completion service an object, a missing
    "precedent_snippets" gives the verdict the empty list, while a missing
    "risk_level", "explanation" or "suggested_text" makes the analysis of
    the clause raise a KeyError (for the first of them that is missing). *)
Theorem response_keys (c : Clause.t) (contract_type risk_profile : str)
    (w w1 w2 : World) (precedents : list PrecedentClause.t) (d : list (str * pyval)) :
  retrieve (Clause.raw_text c) (Clause.label c) contract_type 3%Z w = (Ok precedents, w1) ->
  call_gemini_json RISK_SYSTEM (prompt c risk_profile precedents) w1 = (Ok (PDict d), w2) ->
  (forall risk explanation suggested,
      dict_lookup d (lit "risk_level") = Some (PStr risk) ->
      dict_lookup d (lit "explanation") = Some (PStr explanation) ->
      dict_lookup d (lit "suggested_text") = Some (PStr suggested) ->
      dict_lookup d (lit "precedent_snippets") = None ->
      analyse c contract_type risk_profile w
      = (Ok (ClauseAnalysis.make (Clause.label c) risk explanation suggested []), w2))
  /\ (forall k,
        In k required_keys ->
        dict_lookup d k = None ->
        exists k', In k' required_keys
                   /\ dict_lookup d k' = None
                   /\ analyse c contract_type risk_profile w = (Raise (KeyError k'), w2)).
Proof.
  intros Hp Hc. pose proof (analyse_clause_run c contract_type risk_profile _ _ _ _ _ Hp Hc) as A.
  split.
  - intros risk explanation suggested Hr Hx Ht Hn. rewrite A.
    unfold analysis_of_response, getitem, get_method, dict_get.
    rewrite Hr, Hx, Ht, Hn. reflexivity.
  - intros k Hin Hk.
    destruct (missing_key_raises c d k Hin Hk) as [k' [Hin' [Hk' E]]].
    exists k'. rewrite A, E. auto.
Qed.

End PipelineFacts.

(* ===================================================================== *)
(** ** The theorems at work on the sample worlds *)
(* ===================================================================== *)

Lemma limitation_of_liability_tier_witness :
  Clause.label liability_clause = lit "limitation_of_liability"
  /\ basic_rules_risk ascii_lower liability_clause [] conservative = RED.
Proof.
  split; [reflexivity|].
  destruct (limitation_of_liability_tier ascii_lower liability_clause [] conservative
              eq_refl) as [H _].
  apply H. repeat split.
  - apply contains_spec. vm_compute. reflexivity.
  - apply contains_false. vm_compute. reflexivity.
  - apply contains_false. vm_compute. reflexivity.
Defined.

Lemma governing_law_tier_witness :
  Clause.label governing_law_clause = lit "governing_law"
  /\ basic_rules_risk ascii_lower governing_law_clause [] conservative = GREEN.
Proof.
  split; [reflexivity|].
  destruct (governing_law_tier ascii_lower governing_law_clause [] conservative
              eq_refl) as [H _].
  apply H. split; apply contains_spec; vm_compute; reflexivity.
Defined.

Lemma termination_tier_witness :
  Clause.label termination_clause = lit "termination"
  /\ basic_rules_risk ascii_lower termination_clause [] conservative = RED.
Proof.
  split; [reflexivity|].
  destruct (termination_tier ascii_lower termination_clause [] conservative
              eq_refl) as [H _].
  apply H. split; apply contains_spec; vm_compute; reflexivity.
Defined.

Lemma basic_rules_risk_reads_label_and_text_witness :
  basic_rules_risk ascii_lower governing_law_clause
    (playbook_for (lit "governing_law")) conservative
  = basic_rules_risk ascii_lower
      (Clause.make (lit "governing_law")
         (lit "This Agreement is governed by the laws of England and Wales.") None None)
      (playbook_for (lit "termination")) (lit "aggressive").
Proof.
  apply (basic_rules_risk_reads_label_and_text ascii_lower); reflexivity.
Defined.

Lemma playbook_lookup_total_witness :
  dict_lookup PLAYBOOK (lit "ip") = None /\ playbook_for (lit "ip") = [].
Proof.
  destruct playbook_lookup_total as [_ [_ [_ H]]].
  apply H; discriminate.
Defined.

Lemma analyse_clauses_filters_in_order_witness :
  flaky_batch [ip_clause; governing_law_clause; liability_clause] saas conservative 0
  = (Ok [governing_law_verdict;
         ClauseAnalysis.make (lit "limitation_of_liability") (lit "AMBER")
           (lit "Foreign law.") (lit "English law applies.")
           [lit "laws of England and Wales"]], 6)
  /\ map ClauseAnalysis.clause_label
       [governing_law_verdict;
        ClauseAnalysis.make (lit "limitation_of_liability") (lit "AMBER")
          (lit "Foreign law.") (lit "English law applies.")
          [lit "laws of England and Wales"]]
     = [lit "governing_law"; lit "limitation_of_liability"].
Proof.
  assert (E : flaky_batch [ip_clause; governing_law_clause; liability_clause]
                saas conservative 0
              = (Ok [governing_law_verdict;
                     ClauseAnalysis.make (lit "limitation_of_liability") (lit "AMBER")
                       (lit "Foreign law.") (lit "English law applies.")
                       [lit "laws of England and Wales"]], 6)).
  { vm_compute. reflexivity. }
  split; [exact E|].
  destruct (analyse_clauses_filters_in_order nat ascii_lower (constant_embedding [])
              (constant_search [sample_hit]) flaky_completion
              [ip_clause; governing_law_clause; liability_clause] saas conservative 0)
    as [_ H].
  exact (H _ _ E).
Defined.

Lemma clause_failure_ends_batch_witness :
  flaky_batch [ip_clause; governing_law_clause] saas conservative 0
  = (Ok [governing_law_verdict], 3)
  /\ is_tracked (Clause.label termination_clause) = true
  /\ flaky_analyse termination_clause saas conservative 3 = (Raise service_failure, 6)
  /\ flaky_batch ([ip_clause; governing_law_clause] ++ termination_clause :: [liability_clause])
       saas conservative 0
     = (Raise service_failure, 6).
Proof.
  assert (H1 : flaky_batch [ip_clause; governing_law_clause] saas conservative 0
               = (Ok [governing_law_verdict], 3)) by (vm_compute; reflexivity).
  assert (H2 : is_tracked (Clause.label termination_clause) = true) by reflexivity.
  assert (H3 : flaky_analyse termination_clause saas conservative 3
               = (Raise service_failure, 6)) by (vm_compute; reflexivity).
  split; [exact H1|]. split; [exact H2|]. split; [exact H3|].
  exact (clause_failure_ends_batch nat ascii_lower (constant_embedding [])
           (constant_search [sample_hit]) flaky_completion
           [ip_clause; governing_law_clause] [liability_clause] termination_clause
           saas conservative 0 3 6 [governing_law_verdict] service_failure H1 H2 H3).
Defined.

Lemma retrieval_failure_ends_clause_analysis_witness :
  embedding_down (Clause.raw_text governing_law_clause) 0
  = (Raise (ServiceError (lit "embedding service unavailable")), 1)
  /\ embedding_down_analyse governing_law_clause saas conservative 0
     = (Raise (ServiceError (lit "embedding service unavailable")), 1).
Proof.
  assert (H : embedding_down (Clause.raw_text governing_law_clause) 0
              = (Raise (ServiceError (lit "embedding service unavailable")), 1))
    by reflexivity.
  split; [exact H|].
  exact (proj2 (retrieval_failure_ends_clause_analysis nat ascii_lower embedding_down
                  (constant_search [sample_hit]) (constant_completion sample_response)
                  governing_law_clause saas conservative 0 1
                  (ServiceError (lit "embedding service unavailable")) (or_introl H))).
Defined.


Lemma response_keys_witness :
  exists k,
    In k required_keys
    /\ analyse_clause ascii_lower (constant_embedding []) (constant_search [])
         (constant_completion response_without_explanation)
         liability_clause saas conservative 0
       = (Raise (KeyError k), 3).
Proof.
  assert (Hp : get_precedents_for_clause (constant_embedding []) (constant_search [])
                 (Clause.raw_text liability_clause) (Clause.label liability_clause)
                 saas 3%Z 0 = (Ok [], 2)) by reflexivity.
  destruct (response_keys nat ascii_lower (constant_embedding []) (constant_search [])
              (constant_completion response_without_explanation)
              liability_clause saas conservative 0 2 3 []
              [ (lit "risk_level", PStr (lit "RED"));
                (lit "suggested_text", PStr (lit "Liability shall not exceed the Fees.")) ]
              Hp eq_refl) as [_ H].
  destruct (H (lit "explanation")) as [k [Hin [_ E]]].
  - simpl. auto.
  - reflexivity.
  - exists k. split; assumption.
Defined.

(* ===================================================================== *)
(** ** What the code does not do *)
(* ===================================================================== *)

(** C1, as stated, fails: of three tracked clauses the second makes the
    completion service fail; each of the other two is analysed without error
    on its own, yet the batch raises and returns no verdict at all. *)
Lemma batch_failure_not_isolated :
  flaky_analyse governing_law_clause saas conservative 0 = (Ok governing_law_verdict, 3)
  /\ flaky_analyse termination_clause saas conservative 3 = (Raise service_failure, 6)
  /\ (exists v, flaky_analyse liability_clause saas conservative 6 = (Ok v, 9))
  /\ flaky_batch [governing_law_clause; termination_clause; liability_clause]
       saas conservative 0
     = (Raise service_failure, 6)
  /\ ~ (exists vs w,
          flaky_batch [governing_law_clause; termination_clause; liability_clause]
            saas conservative 0
          = (Ok vs, w)).
Proof.
  assert (E : flaky_batch [governing_law_clause; termination_clause; liability_clause]
                saas conservative 0
              = (Raise service_failure, 6)) by (vm_compute; reflexivity).
  split; [vm_compute; reflexivity|].
  split; [vm_compute; reflexivity|].
  split; [eexists; vm_compute; reflexivity|].
  split; [exact E|].
  intros [vs [w H]]. rewrite E in H. discriminate H.
Qed.

(** C2, as stated, fails: with the embedding service down the clause
    analysis raises, although going on with an empty precedent list would
    have given a verdict. *)
Lemma retrieval_failure_not_recovered :
  get_precedents_for_clause embedding_down (constant_search [sample_hit])
    (Clause.raw_text governing_law_clause) (Clause.label governing_law_clause) saas 3%Z 0
  = (Raise (ServiceError (lit "embedding service unavailable")), 1)
  /\ synthesise (constant_completion sample_response) governing_law_clause conservative
       (playbook_for (Clause.label governing_law_clause))
       (basic_rules_risk ascii_lower governing_law_clause
          (playbook_for (Clause.label governing_law_clause)) conservative)
       [] 1
     = (Ok governing_law_verdict, 2)
  /\ embedding_down_analyse governing_law_clause saas conservative 0
     = (Raise (ServiceError (lit "embedding service unavailable")), 1)
  /\ ~ (exists v w, embedding_down_analyse governing_law_clause saas conservative 0
                    = (Ok v, w)).
Proof.
  assert (E : embedding_down_analyse governing_law_clause saas conservative 0
              = (Raise (ServiceError (lit "embedding service unavailable")), 1))
    by (vm_compute; reflexivity).
  split; [vm_compute; reflexivity|].
  split; [vm_compute; reflexivity|].
  split; [exact E|].
  intros [v [w H]]. rewrite E in H. discriminate H.
Qed.


(* ===================================================================== *)
(** ** Runs of the model *)
(* ===================================================================== *)

Example str_of_int_runs :
  str_of_int 30 = lit "30" /\ str_of_int 0 = lit "0" /\ str_of_int (-7) = lit "-7".
Proof. repeat split. Qed.

Example repr_rule_runs :
  repr_rule (playbook_for (lit "limitation_of_liability"))
  = lit "{'max_cap_months': 12, 'allow_unlimited_for': ['death_or_personal_injury', 'fraud'], 'disallow_exclusions': ['gross_negligence', 'wilful_misconduct']}"
  /\ repr_rule (playbook_for (lit "governing_law"))
     = lit "{'preferred': ['England and Wales'], 'discouraged': [], 'forbidden': []}"
  /\ repr_rule (playbook_for (lit "termination")) = lit "{'min_notice_days': 30}"
  /\ repr_rule (playbook_for (lit "ip")) = lit "{}".
Proof. repeat split. Qed.

Example precedent_of_hit_runs :
  precedent_of_hit sample_hit
  = Ok (PrecedentClause.make (lit "3") (lit "governing_law")
          (lit "governed by the laws of the State of New York") (lit "medium")
          (Some (lit "New York")) (Some (lit "saas")))
  /\ precedent_of_hit {| hit_id := IdStr (lit "7f1c"); payload := None |}
     = Ok (PrecedentClause.make (lit "7f1c") [] [] [] None None)
  /\ precedent_of_hit {| hit_id := IdInt 0; payload := Some [(lit "text", PInt 4)] |}
     = Raise (ValidationError (lit "PrecedentClause")).
Proof. repeat split. Qed.

Example user_prompt_runs :
  user_prompt termination_clause conservative
    (basic_rules_risk ascii_lower termination_clause
       (playbook_for (lit "termination")) conservative)
    (playbook_for (lit "termination"))
    (precedents_text
       [ PrecedentClause.make (lit "4") (lit "termination") (lit "thirty (30) days' notice")
           (lit "low") None (Some saas);
         PrecedentClause.make (lit "5") (lit "termination") (lit "with immediate effect")
           (lit "high") None (Some saas) ])
  = lit "
Clause label: termination
Risk profile: conservative
Rule-based preliminary risk: RED

Playbook for this clause type:
{'min_notice_days': 30}

Actual contract clause:
<clause>
The Supplier may terminate with immediate effect for any reason.
</clause>

Relevant precedent clauses:
- [low] thirty (30) days' notice

- [high] with immediate effect

Return strictly the JSON schema specified in the system instruction.
".
Proof. vm_compute. reflexivity. Qed.

(** The scenarios of the classifier. *)
Example classifier_scenarios :
  basic_rules_risk ascii_lower
    (Clause.make (lit "limitation_of_liability")
       (lit "The Supplier shall have no liability, unlimited, to the Customer...")
       None None)
    (playbook_for (lit "limitation_of_liability")) conservative = RED
  /\ basic_rules_risk ascii_lower
       (Clause.make (lit "limitation_of_liability")
          (lit "liability shall not exceed fees paid in the preceding 12 months")
          None None)
       (playbook_for (lit "limitation_of_liability")) conservative = AMBER
  /\ basic_rules_risk ascii_lower
       (Clause.make (lit "governing_law")
          (lit "This Agreement is governed by the laws of England and Wales.")
          None None)
       (playbook_for (lit "governing_law")) conservative = GREEN
  /\ basic_rules_risk ascii_lower
       (Clause.make (lit "termination") (lit "Either party may terminate.") None None)
       (playbook_for (lit "termination")) conservative = AMBER
  /\ basic_rules_risk ascii_lower ip_clause (playbook_for (lit "ip")) conservative = AMBER.
Proof. repeat split. Qed.

(** A batch of untracked clauses makes no service call and returns nothing. *)
Example untracked_batch :
  flaky_batch [ip_clause] saas conservative 0 = (Ok [], 0).
Proof. reflexivity. Qed.

(** A response that is no object, or whose fields are no strings. *)
Example odd_responses :
  analysis_of_response ip_clause (PList []) = Raise TypeError
  /\ analysis_of_response ip_clause PNone = Raise TypeError
  /\ analysis_of_response ip_clause (PDict []) = Raise (KeyError (lit "risk_level"))
  /\ analysis_of_response ip_clause
       (PDict [ (lit "risk_level", PInt 3);
                (lit "explanation", PStr (lit "e"));
                (lit "suggested_text", PStr (lit "s")) ])
     = Raise (ValidationError (lit "ClauseAnalysis"))
  /\ analysis_of_response ip_clause
       (PDict [ (lit "risk_level", PStr (lit "RED"));
                (lit "explanation", PStr (lit "e"));
                (lit "suggested_text", PStr (lit "s"));
                (lit "precedent_snippets", PNone) ])
     = Raise (ValidationError (lit "ClauseAnalysis")).
Proof. repeat split. Qed.

(* ===================================================================== *)
(** ** More on the classifier *)
(* ===================================================================== *)

Section ClassifierInversion.

Variable lower : str -> str.

(** X1: a clause whose label is none of the three tracked ones is AMBER,
    whatever its text. *)
Theorem other_labels_are_amber (clause : Clause.t) (playbook : PlaybookRule)
    (risk_profile : str) :
  Clause.label clause <> lit "limitation_of_liability" ->
  Clause.label clause <> lit "governing_law" ->
  Clause.label clause <> lit "termination" ->
  basic_rules_risk lower clause playbook risk_profile = AMBER.
Proof.
  intros H1 H2 H3. unfold basic_rules_risk.
  apply str_eqb_neq in H1, H2, H3. rewrite H1, H2, H3. reflexivity.
Qed.

(** X2: reading a tier backwards.  GREEN is given to governing_law clauses
    that name both england and wales and to nothing else; RED is given to
    limitation_of_liability clauses and to termination clauses with
    "immediate" and "any reason", and to nothing else. *)
Theorem tier_inversion (clause : Clause.t) (playbook : PlaybookRule) (risk_profile : str) :
  let text := lower (Clause.raw_text clause) in
  let risk := basic_rules_risk lower clause playbook risk_profile in
  (risk = GREEN ->
   Clause.label clause = lit "governing_law"
   /\ Substring (lit "england") text /\ Substring (lit "wales") text)
  /\ (risk = RED ->
      Clause.label clause = lit "limitation_of_liability"
      \/ (Clause.label clause = lit "termination"
          /\ Substring (lit "immediate") text /\ Substring (lit "any reason") text)).
Proof.
  intros text risk. subst risk. unfold basic_rules_risk. fold text.
  destruct (str_eqb (Clause.label clause) (lit "limitation_of_liability")) eqn:E1.
  { apply str_eqb_eq in E1. split; [|auto].
    repeat match goal with
           | |- context [if ?b then _ else _] => destruct b
           end; discriminate. }
  destruct (str_eqb (Clause.label clause) (lit "governing_law")) eqn:E2.
  { apply str_eqb_eq in E2.
    destruct (contains (lit "england") text) eqn:C1;
      destruct (contains (lit "wales") text) eqn:C2; cbn [andb];
      split; try discriminate.
    intros _. rewrite <- !contains_spec. auto. }
  destruct (str_eqb (Clause.label clause) (lit "termination")) eqn:E3.
  { apply str_eqb_eq in E3.
    destruct (contains (lit "immediate") text) eqn:C1;
      destruct (contains (lit "any reason") text) eqn:C2; cbn [andb];
      split; try discriminate;
      try (destruct (contains (lit "days") text || contains (lit "months") text);
           discriminate).
    intros _. right. rewrite <- !contains_spec. auto. }
  split; discriminate.
Qed.

End ClassifierInversion.

(* ===================================================================== *)
(** ** More on retrieval and on the analysis of one clause *)
(* ===================================================================== *)

Lemma join_In (sep x : str) (parts : list str) :
  In x parts -> Substring x (join sep parts).
Proof.
  induction parts as [|p rest IH]; intros Hin; [destruct Hin|].
  destruct rest as [|p' rest'].
  - destruct Hin as [<- | []]. exists [], []. simpl. rewrite app_nil_r. reflexivity.
  - change (join sep (p :: p' :: rest')) with (p ++ sep ++ join sep (p' :: rest')).
    destruct Hin as [<- | Hin].
    + exists [], (sep ++ join sep (p' :: rest')). reflexivity.
    + destruct (IH Hin) as [b [a E]]. exists (p ++ sep ++ b), a.
      rewrite E, <- !app_assoc. reflexivity.
Qed.

Lemma Substring_app_l (x s t : str) : Substring x s -> Substring x (s ++ t).
Proof.
  intros [b [a E]]. exists b, (a ++ t). rewrite E, <- !app_assoc. reflexivity.
Qed.

Lemma Substring_app_r (x s t : str) : Substring x t -> Substring x (s ++ t).
Proof.
  intros [b [a E]]. exists (s ++ b), a. rewrite E, <- !app_assoc. reflexivity.
Qed.

(** A hit is refused by the validation of [PrecedentClause] only. *)
Lemma precedent_of_hit_error (hit : ScoredPoint) (e : exn) :
  precedent_of_hit hit = Raise e -> e = ValidationError (lit "PrecedentClause").
Proof.
  unfold precedent_of_hit, new_PrecedentClause.
  repeat match goal with
         | |- context [match ?x with _ => _ end] => destruct x
         end; intros H; inversion H; reflexivity.
Qed.

(** X3: a hit without payload, or whose payload has none of the five fields,
    is no error: it becomes a precedent with empty strings and [None]s. *)
Theorem missing_payload_fields_default (hit : ScoredPoint) :
  (forall k,
      In k [lit "clause_type"; lit "contract_type"; lit "risk_level";
            lit "jurisdiction"; lit "text"] ->
      dict_lookup (payload_or_empty (payload hit)) k = None) ->
  precedent_of_hit hit
  = Ok (PrecedentClause.make (str_of_id (hit_id hit)) [] [] [] None None).
Proof.
  intros H. unfold precedent_of_hit, dict_get.
  rewrite !H by (simpl; auto 6). reflexivity.
Qed.

Section PipelineInversion.

Variable World : Type.
Variable lower : str -> str.
Variable get_embedding : str -> M World (list float).
Variable search_precedents : list float -> str -> str -> Z -> M World (list ScoredPoint).
Variable call_gemini_json : str -> str -> M World pyval.

Local Notation retrieve :=
  (get_precedents_for_clause get_embedding search_precedents).
Local Notation analyse :=
  (analyse_clause lower get_embedding search_precedents call_gemini_json).
Local Notation batch :=
  (analyse_clauses lower get_embedding search_precedents call_gemini_json).
Local Notation loop :=
  (analyse_loop lower get_embedding search_precedents call_gemini_json).
Local Notation rule_risk c risk_profile :=
  (basic_rules_risk lower c (playbook_for (Clause.label c)) risk_profile).
Local Notation prompt c risk_profile precedents :=
  (user_prompt c risk_profile (rule_risk c risk_profile)
     (playbook_for (Clause.label c)) (precedents_text precedents)).

(** The conversion of the hits does not touch the world. *)
Lemma collect_precedents_world (hits : list ScoredPoint)
    (results : list PrecedentClause.t) (w : World) :
  snd (collect_precedents hits results w) = w.
Proof.
  revert results. induction hits as [|h hits IH]; intros results; simpl.
  - reflexivity.
  - unfold bind, lift. destruct (precedent_of_hit h); [apply IH | reflexivity].
Qed.

Lemma collect_precedents_ok (hits : list ScoredPoint)
    (results ps : list PrecedentClause.t) (w w' : World) :
  collect_precedents hits results w = (Ok ps, w') ->
  exists new,
    ps = results ++ new
    /\ Forall2 (fun h p => precedent_of_hit h = Ok p) hits new.
Proof.
  revert results. induction hits as [|h hits IH]; intros results H; simpl in H.
  - inversion H. exists []. rewrite app_nil_r. split; [reflexivity | constructor].
  - unfold bind, lift in H. destruct (precedent_of_hit h) as [p|e] eqn:E; [|discriminate].
    destruct (IH _ H) as [new [-> F]].
    exists (p :: new). rewrite <- app_assoc. split; [reflexivity|].
    constructor; assumption.
Qed.

Lemma collect_precedents_raises (hits : list ScoredPoint) (h : ScoredPoint)
    (results : list PrecedentClause.t) (e : exn) (w : World) :
  In h hits ->
  precedent_of_hit h = Raise e ->
  collect_precedents hits results w = (Raise (ValidationError (lit "PrecedentClause")), w).
Proof.
  revert results. induction hits as [|h' hits IH]; intros results Hin He; [destruct Hin|].
  simpl. unfold bind, lift. destruct (precedent_of_hit h') as [p|e'] eqn:E.
  - destruct Hin as [-> | Hin]; [congruence|]. apply IH; assumption.
  - rewrite (precedent_of_hit_error _ _ E). reflexivity.
Qed.

(** X4: a retrieval that returns gives one precedent for each hit of the
    index, in the order of the hits, under the id of its hit; the world is
    the one the index query left. *)
Theorem retrieval_keeps_the_hits (clause_text clause_type contract_type : str) (limit : Z)
    (w w' : World) (precedents : list PrecedentClause.t) :
  retrieve clause_text clause_type contract_type limit w = (Ok precedents, w') ->
  exists emb w1 hits,
    get_embedding clause_text w = (Ok emb, w1)
    /\ search_precedents emb clause_type contract_type limit w1 = (Ok hits, w')
    /\ Forall2 (fun h p => precedent_of_hit h = Ok p) hits precedents
    /\ map PrecedentClause.id precedents = map (fun h => str_of_id (hit_id h)) hits
    /\ List.length precedents = List.length hits.
Proof.
  unfold get_precedents_for_clause. intros H.
  apply bind_inv_ok in H. destruct H as [emb [w1 [He H]]].
  apply bind_inv_ok in H. destruct H as [hits [w2 [Hs H]]].
  pose proof (collect_precedents_world hits [] w2) as Hw. rewrite H in Hw. simpl in Hw.
  subst w2. apply collect_precedents_ok in H. destruct H as [new [-> F]]. simpl.
  exists emb, w1, hits. repeat split; try assumption.
  - clear -F. induction F as [|h p hs ps Hp _ IH]; simpl; [reflexivity|].
    rewrite IH. f_equal. unfold precedent_of_hit, new_PrecedentClause in Hp.
    repeat match type of Hp with
           | context [match ?x with _ => _ end] => destruct x; try discriminate
           end.
    inversion Hp. reflexivity.
  - symmetry. eapply Forall2_length. exact F.
Qed.

(** X5: one hit whose payload fails the validation makes the whole retrieval
    raise a ValidationError: the hits that are fine are not returned. *)
Theorem invalid_hit_fails_retrieval (clause_text clause_type contract_type : str)
    (limit : Z) (w w1 w2 : World) (emb : list float) (hits : list ScoredPoint)
    (h : ScoredPoint) (e : exn) :
  get_embedding clause_text w = (Ok emb, w1) ->
  search_precedents emb clause_type contract_type limit w1 = (Ok hits, w2) ->
  In h hits ->
  precedent_of_hit h = Raise e ->
  retrieve clause_text clause_type contract_type limit w
  = (Raise (ValidationError (lit "PrecedentClause")), w2).
Proof.
  intros He Hs Hin Hh. unfold get_precedents_for_clause.
  rewrite (bind_ok _ He), (bind_ok _ Hs).
  eapply collect_precedents_raises; eassumption.
Qed.

(** X6: each precedent retrieved reaches the prompt, as a line that starts
    with its own risk level in brackets. *)
Theorem prompt_lists_every_precedent (c : Clause.t) (risk_profile : str)
    (precedents : list PrecedentClause.t) (p : PrecedentClause.t) :
  In p precedents ->
  Substring (lit "- [" ++ PrecedentClause.risk_level p ++ lit "] " ++ PrecedentClause.text p)
    (prompt c risk_profile precedents).
Proof.
  intros Hin.
  assert (S : Substring
                (lit "- [" ++ PrecedentClause.risk_level p ++ lit "] "
                 ++ PrecedentClause.text p)
                (precedents_text precedents)).
  { unfold precedents_text. apply join_In.
    apply (in_map (fun p => lit "- [" ++ PrecedentClause.risk_level p ++ lit "] "
                            ++ PrecedentClause.text p)). exact Hin. }
  unfold user_prompt. do 27 apply Substring_app_r. apply Substring_app_l. exact S.
Qed.

End PipelineInversion.

(** What a verdict built from a response says about the response. *)
Lemma analysis_of_response_inv (c : Clause.t) (raw : pyval) (a : ClauseAnalysis.t) :
  analysis_of_response c raw = Ok a ->
  exists d,
    raw = PDict d
    /\ ClauseAnalysis.clause_label a = Clause.label c
    /\ dict_lookup d (lit "risk_level") = Some (PStr (ClauseAnalysis.risk_level a))
    /\ dict_lookup d (lit "explanation") = Some (PStr (ClauseAnalysis.explanation a))
    /\ dict_lookup d (lit "suggested_text") = Some (PStr (ClauseAnalysis.suggested_text a))
    /\ ((dict_lookup d (lit "precedent_snippets") = None
         /\ ClauseAnalysis.precedent_snippets a = [])
        \/ (exists l,
              dict_lookup d (lit "precedent_snippets") = Some (PList l)
              /\ all_str l = Some (ClauseAnalysis.precedent_snippets a))).
Proof.
  unfold analysis_of_response, getitem, get_method, dict_get, new_ClauseAnalysis.
  destruct raw as [| | | | | |d]; try discriminate.
  destruct (dict_lookup d (lit "risk_level")) as [v1|] eqn:E1; [|discriminate].
  destruct (dict_lookup d (lit "explanation")) as [v2|] eqn:E2; [|discriminate].
  destruct (dict_lookup d (lit "suggested_text")) as [v3|] eqn:E3; [|discriminate].
  destruct v1; try discriminate. destruct v2; try discriminate.
  destruct v3; try discriminate. simpl.
  destruct (dict_lookup d (lit "precedent_snippets")) as [v4|] eqn:E4; simpl.
  - destruct v4; simpl; try discriminate.
    destruct (all_str l) as [ss|] eqn:A; [|discriminate].
    intros H. inversion H; subst; simpl. exists d.
    split; [reflexivity|]. split; [reflexivity|]. split; [exact E1|].
    split; [exact E2|]. split; [exact E3|]. right. exists l. auto.
  - intros H. inversion H; subst; simpl. exists d.
    split; [reflexivity|]. split; [reflexivity|]. split; [exact E1|].
    split; [exact E2|]. split; [exact E3|]. left. auto.
Qed.

Section Verdicts.

Variable World : Type.
Variable lower : str -> str.
Variable get_embedding : str -> M World (list float).
Variable search_precedents : list float -> str -> str -> Z -> M World (list ScoredPoint).
Variable call_gemini_json : str -> str -> M World pyval.

Local Notation retrieve :=
  (get_precedents_for_clause get_embedding search_precedents).
Local Notation analyse :=
  (analyse_clause lower get_embedding search_precedents call_gemini_json).
Local Notation batch :=
  (analyse_clauses lower get_embedding search_precedents call_gemini_json).
Local Notation loop :=
  (analyse_loop lower get_embedding search_precedents call_gemini_json).
Local Notation rule_risk c risk_profile :=
  (basic_rules_risk lower c (playbook_for (Clause.label c)) risk_profile).
Local Notation prompt c risk_profile precedents :=
  (user_prompt c risk_profile (rule_risk c risk_profile)
     (playbook_for (Clause.label c)) (precedents_text precedents)).

(** X7: every verdict comes from a response of the completion service.  Its
    label is the label of the clause; its risk level, explanation and
    suggested text are the strings of the response, taken as they are: the
    risk level is neither compared with the rule-based tier nor required to
    be GREEN, AMBER or RED. *)
Theorem verdict_comes_from_response (c : Clause.t) (contract_type risk_profile : str)
    (w w' : World) (a : ClauseAnalysis.t) :
  analyse c contract_type risk_profile w = (Ok a, w') ->
  exists precedents w1 d,
    retrieve (Clause.raw_text c) (Clause.label c) contract_type 3%Z w = (Ok precedents, w1)
    /\ call_gemini_json RISK_SYSTEM (prompt c risk_profile precedents) w1 = (Ok (PDict d), w')
    /\ ClauseAnalysis.clause_label a = Clause.label c
    /\ dict_lookup d (lit "risk_level") = Some (PStr (ClauseAnalysis.risk_level a))
    /\ dict_lookup d (lit "explanation") = Some (PStr (ClauseAnalysis.explanation a))
    /\ dict_lookup d (lit "suggested_text") = Some (PStr (ClauseAnalysis.suggested_text a))
    /\ ((dict_lookup d (lit "precedent_snippets") = None
         /\ ClauseAnalysis.precedent_snippets a = [])
        \/ (exists l,
              dict_lookup d (lit "precedent_snippets") = Some (PList l)
              /\ all_str l = Some (ClauseAnalysis.precedent_snippets a))).
Proof.
  unfold analyse_clause. intros H.
  apply bind_inv_ok in H. destruct H as [ps [w1 [Hp H]]].
  unfold synthesise in H. apply bind_inv_ok in H. destruct H as [raw [w2 [Hc H]]].
  unfold lift in H. inversion H; subst w2.
  match goal with E : analysis_of_response _ _ = _ |- _ =>
    destruct (analysis_of_response_inv _ _ _ E) as [d [-> R]] end.
  exists ps, w1, d. split; [exact Hp|]. split; [exact Hc|]. exact R.
Qed.

(** X8: a response of the completion service that is valid JSON but no
    object (a list, a string, a number, null) makes the analysis of the
    clause raise a TypeError. *)
Theorem non_object_response_raises (c : Clause.t) (contract_type risk_profile : str)
    (w w1 w2 : World) (precedents : list PrecedentClause.t) (raw : pyval) :
  retrieve (Clause.raw_text c) (Clause.label c) contract_type 3%Z w = (Ok precedents, w1) ->
  call_gemini_json RISK_SYSTEM (prompt c risk_profile precedents) w1 = (Ok raw, w2) ->
  (forall d, raw <> PDict d) ->
  analyse c contract_type risk_profile w = (Raise TypeError, w2).
Proof.
  intros Hp Hc Hd.
  rewrite (analyse_clause_run _ _ _ _ _ c contract_type risk_profile _ _ _ _ _ Hp Hc).
  destruct raw; try reflexivity. exfalso. eapply Hd. reflexivity.
Qed.

(** X9: with the three subscripted keys present, a field of the wrong type
    makes the analysis raise a ValidationError; the default of
    "precedent_snippets" is for an absent key only, so that an explicit null
    (or anything but a list of strings) there is refused too. *)
Theorem wrongly_typed_response_raises (c : Clause.t) (contract_type risk_profile : str)
    (w w1 w2 : World) (precedents : list PrecedentClause.t) (d : list (str * pyval))
    (risk explanation suggested : pyval) :
  retrieve (Clause.raw_text c) (Clause.label c) contract_type 3%Z w = (Ok precedents, w1) ->
  call_gemini_json RISK_SYSTEM (prompt c risk_profile precedents) w1 = (Ok (PDict d), w2) ->
  dict_lookup d (lit "risk_level") = Some risk ->
  dict_lookup d (lit "explanation") = Some explanation ->
  dict_lookup d (lit "suggested_text") = Some suggested ->
  as_str risk = None
  \/ as_str explanation = None
  \/ as_str suggested = None
  \/ (exists snippets,
        dict_lookup d (lit "precedent_snippets") = Some snippets
        /\ as_list_str snippets = None) ->
  analyse c contract_type risk_profile w
  = (Raise (ValidationError (lit "ClauseAnalysis")), w2).
Proof.
  intros Hp Hc Hr Hx Ht Hbad.
  rewrite (analyse_clause_run _ _ _ _ _ c contract_type risk_profile _ _ _ _ _ Hp Hc).
  unfold analysis_of_response, getitem, get_method, dict_get, new_ClauseAnalysis.
  rewrite Hr, Hx, Ht.
  destruct Hbad as [H | [H | [H | [v [Hv H]]]]].
  - rewrite H. reflexivity.
  - rewrite H. destruct (as_str risk); reflexivity.
  - rewrite H. destruct (as_str risk), (as_str explanation); reflexivity.
  - rewrite Hv, H. destruct (as_str risk), (as_str explanation), (as_str suggested);
      reflexivity.
Qed.

(** *** The batch *)

(** X10: a batch without a tracked clause returns the empty list and leaves
    the world as it was: no service is called. *)
Theorem untracked_batch_is_silent (clauses : list Clause.t)
    (contract_type risk_profile : str) (w : World) :
  (forall c, In c clauses -> is_tracked (Clause.label c) = false) ->
  batch clauses contract_type risk_profile w = (Ok [], w).
Proof.
  unfold analyse_clauses. induction clauses as [|c cs IH]; intros H; simpl.
  - reflexivity.
  - rewrite (H c (or_introl eq_refl)). apply IH. intros c' Hin. apply H. right. exact Hin.
Qed.

(** X11: the batch of a concatenation is the batch of the first part, then
    the batch of the second part in the world the first one left, with the
    verdicts appended; an error of the first part ends it. *)
Theorem batch_of_concatenation (first second : list Clause.t)
    (contract_type risk_profile : str) (w : World) :
  batch (first ++ second) contract_type risk_profile w
  = (vs1 <- batch first contract_type risk_profile ;;
     vs2 <- batch second contract_type risk_profile ;;
     ret (vs1 ++ vs2)) w.
Proof.
  unfold analyse_clauses. rewrite analyse_loop_app. unfold bind.
  destruct (loop first contract_type risk_profile [] w) as [[vs1|e] w1]; [|reflexivity].
  rewrite analyse_loop_acc.
  destruct (loop second contract_type risk_profile [] w1) as [[vs2|e] w2]; reflexivity.
Qed.

End Verdicts.

(* ===================================================================== *)
(** ** How often the services are called *)
(* ===================================================================== *)

Section ServiceCalls.

Variable World : Type.
Variable lower : str -> str.
Variable get_embedding : str -> M World (list float).
Variable search_precedents : list float -> str -> str -> Z -> M World (list ScoredPoint).
Variable call_gemini_json : str -> str -> M World pyval.

Local Notation analyse :=
  (analyse_clause lower (counted_embedding get_embedding)
     (counted_search search_precedents) (counted_completion call_gemini_json)).
Local Notation loop :=
  (analyse_loop lower (counted_embedding get_embedding)
     (counted_search search_precedents) (counted_completion call_gemini_json)).
Local Notation batch :=
  (analyse_clauses lower (counted_embedding get_embedding)
     (counted_search search_precedents) (counted_completion call_gemini_json)).

(** The analysis of one clause: one embedding call, then at most one query
    of the index, then at most one completion call. *)
Lemma analyse_clause_calls (c : Clause.t) (contract_type risk_profile : str)
    (w w' : World) (k k' : calls) (r : result ClauseAnalysis.t) :
  analyse c contract_type risk_profile (w, k) = (r, (w', k')) ->
  embedding_calls k' = S (embedding_calls k)
  /\ (search_calls k' = search_calls k \/ search_calls k' = S (search_calls k))
  /\ (completion_calls k' = completion_calls k
      \/ (completion_calls k' = S (completion_calls k)
          /\ search_calls k' = S (search_calls k)))
  /\ (forall a, r = Ok a ->
                search_calls k' = S (search_calls k)
                /\ completion_calls k' = S (completion_calls k)).
Proof.
  unfold analyse_clause, get_precedents_for_clause, synthesise.
  unfold bind at 1 2 3. unfold counted_embedding at 1. simpl.
  destruct (get_embedding (Clause.raw_text c) w) as [[emb|e] w1]; simpl.
  2:{ intros H. inversion H; subst; simpl. repeat split; auto; discriminate. }
  unfold counted_search at 1. simpl.
  destruct (search_precedents emb (Clause.label c) contract_type 3%Z w1)
    as [[hits|e] w2]; simpl.
  2:{ intros H. inversion H; subst; simpl. repeat split; auto; discriminate. }
  match goal with
  | |- context [collect_precedents hits [] ?s] =>
      pose proof (collect_precedents_world _ hits [] s) as Hw;
      destruct (collect_precedents hits [] s) as [rc s']
  end.
  simpl in Hw. subst. destruct rc as [ps|e].
  2:{ intros H. inversion H; subst; simpl. repeat split; auto; discriminate. }
  unfold bind, counted_completion, lift. simpl.
  match goal with
  | |- context [call_gemini_json ?a ?b ?s] => destruct (call_gemini_json a b s) as [[raw|e] w3]
  end; intros H; inversion H; subst; simpl; repeat split; auto; try discriminate.
Qed.

Lemma analyse_loop_calls (clauses : list Clause.t) (contract_type risk_profile : str)
    (acc : list ClauseAnalysis.t) (w w' : World) (k k' : calls)
    (r : result (list ClauseAnalysis.t)) :
  loop clauses contract_type risk_profile acc (w, k) = (r, (w', k')) ->
  let n := List.length (filter (fun c => is_tracked (Clause.label c)) clauses) in
  embedding_calls k <= embedding_calls k' <= embedding_calls k + n
  /\ search_calls k <= search_calls k'
  /\ completion_calls k <= completion_calls k'
  /\ search_calls k' + embedding_calls k <= embedding_calls k' + search_calls k
  /\ completion_calls k' + search_calls k <= search_calls k' + completion_calls k
  /\ (forall vs, r = Ok vs ->
                 embedding_calls k' = embedding_calls k + n
                 /\ search_calls k' = search_calls k + n
                 /\ completion_calls k' = completion_calls k + n).
Proof.
  revert acc w k. induction clauses as [|c cs IH]; intros acc w k H; simpl in H.
  - inversion H; subst. simpl. repeat (split; [lia|]). intros. lia.
  - simpl. destruct (is_tracked (Clause.label c)).
    + unfold bind in H.
      destruct (analyse c contract_type risk_profile (w, k)) as [[a|e] [w1 k1]] eqn:A;
        apply analyse_clause_calls in A; destruct A as [A1 [A2 [A3 A4]]].
      * destruct (A4 a eq_refl) as [A5 A6].
        apply IH in H. simpl in H. destruct H as [H1 [H2 [H3 [H4 [H5 H6]]]]].
        simpl. repeat (split; [lia|]).
        intros vs Hvs. destruct (H6 vs Hvs) as [? [? ?]]. lia.
      * inversion H; subst. simpl. repeat (split; [lia|]). discriminate.
    + apply IH in H. exact H.
Qed.

(** X12: in a batch each service is called at most once for each tracked
    clause (and not at all for the others), the index no more often than the
    embedding service and the completion service no more often than the
    index; a batch that returns has called each of the three exactly once
    for each tracked clause. *)
Theorem service_calls_of_a_batch (clauses : list Clause.t)
    (contract_type risk_profile : str) (w w' : World) (k k' : calls)
    (r : result (list ClauseAnalysis.t)) :
  batch clauses contract_type risk_profile (w, k) = (r, (w', k')) ->
  let n := List.length (filter (fun c => is_tracked (Clause.label c)) clauses) in
  embedding_calls k <= embedding_calls k' <= embedding_calls k + n
  /\ search_calls k <= search_calls k'
  /\ completion_calls k <= completion_calls k'
  /\ search_calls k' + embedding_calls k <= embedding_calls k' + search_calls k
  /\ completion_calls k' + search_calls k <= search_calls k' + completion_calls k
  /\ (forall vs, r = Ok vs ->
                 embedding_calls k' = embedding_calls k + n
                 /\ search_calls k' = search_calls k + n
                 /\ completion_calls k' = completion_calls k + n).
Proof.
  unfold analyse_clauses. apply analyse_loop_calls.
Qed.

End ServiceCalls.

(* ===================================================================== *)
(** ** The shapes of an embedding response *)
(* ===================================================================== *)

(** X13: how a response that is plain data fails.  The empty list, and it
    alone, escapes as an IndexError; the "completely unexpected" error is
    for the responses that are neither a dict nor a list, all of them. *)
Theorem embedding_response_failures (embed_resp : pyval) :
  (embedding_of_response embed_resp = inr IndexError <-> embed_resp = PList [])
  /\ (embedding_of_response embed_resp = inr CompletelyUnexpectedFormat
      <-> (forall d, embed_resp <> PDict d) /\ (forall l, embed_resp <> PList l)).
Proof.
  split; split.
  - unfold embedding_of_response.
    destruct embed_resp as [| | | | |l|d]; try discriminate.
    + destruct l as [|first rest]; [reflexivity|].
      destruct first; try discriminate.
      repeat match goal with
             | |- context [match ?x with _ => _ end] => destruct x
             end; discriminate.
    + repeat match goal with
             | |- context [match ?x with _ => _ end] => destruct x
             end; discriminate.
  - intros ->. reflexivity.
  - unfold embedding_of_response.
    destruct embed_resp as [| | | | |l|d];
      try (intros _; split; intros; discriminate).
    + destruct l as [|first rest]; [discriminate|].
      destruct first; try discriminate.
      repeat match goal with
             | |- context [match ?x with _ => _ end] => destruct x
             end; discriminate.
    + repeat match goal with
             | |- context [match ?x with _ => _ end] => destruct x
             end; discriminate.
  - intros [Hd Hl]. destruct embed_resp as [| | | | |l|d]; try reflexivity.
    + exfalso. exact (Hl l eq_refl).
    + exfalso. exact (Hd d eq_refl).
Qed.

(** X14: an item whose "embedding" is a list is accepted as the first
    element of a list response, and refused as the first element of the
    "data" of a dict response, where only the form with "values" counts. *)
Theorem list_embedding_under_data_is_refused (item : list (str * pyval))
    (l rest : list pyval) :
  dict_lookup item (lit "embedding") = Some (PList l) ->
  embedding_of_response (PList (PDict item :: rest)) = inl (PList l)
  /\ (forall d,
        dict_lookup d (lit "embedding") = None ->
        dict_lookup d (lit "data") = Some (PList (PDict item :: rest)) ->
        embedding_of_response (PDict d) = inr UnexpectedDictFormat).
Proof.
  intros H. split.
  - unfold embedding_of_response, dict_get. rewrite H. reflexivity.
  - intros d He Hd. unfold embedding_of_response, dict_get.
    rewrite He, Hd, H. reflexivity.
Qed.

(* ===================================================================== *)
(** ** The collection of the vector index *)
(* ===================================================================== *)

Lemma existsb_str_eqb (x : str) (l : list str) :
  existsb (str_eqb x) l = true <-> In x l.
Proof.
  rewrite existsb_exists. split.
  - intros [y [Hin E]]. apply str_eqb_eq in E. subst. exact Hin.
  - intros Hin. exists x. split; [exact Hin | apply str_eqb_refl].
Qed.

Section QdrantFacts.

Variable World : Type.
Variable qdrant_collection : str.
Variable client_get_collections : M World (list str).
Variable client_create_payload_index : str -> str -> str -> M World unit.

Lemma ensure_indexes_returns (fields : list str) (w : World) :
  exists w', ensure_indexes qdrant_collection client_create_payload_index fields w
             = (Ok tt, w').
Proof.
  revert w. induction fields as [|f fs IH]; intros w; simpl.
  - exists w. reflexivity.
  - unfold bind, try_pass.
    destruct (client_create_payload_index qdrant_collection f (lit "keyword") w)
      as [[u|e] w1]; apply IH.
Qed.

(** X15: the only errors that come out of [ensure_collection] are those of
    the listing of the collections and of the creation of a collection that
    is not listed; whatever the creation of the payload indexes raises is
    dropped. *)
Theorem ensure_collection_errors
    (client_create_collection : str -> Z -> Distance -> M World unit)
    (w w' : World) (e : exn) :
  ensure_collection qdrant_collection client_get_collections client_create_collection
    client_create_payload_index w = (Raise e, w')
  <-> client_get_collections w = (Raise e, w')
      \/ (exists names w1,
            client_get_collections w = (Ok names, w1)
            /\ ~ In qdrant_collection names
            /\ client_create_collection qdrant_collection EMBEDDING_DIM COSINE w1
               = (Raise e, w')).
Proof.
  unfold ensure_collection.
  destruct (client_get_collections w) as [[names|e0] w1] eqn:G.
  2:{ rewrite (bind_raise _ G). split.
      - intros H. left. inversion H. reflexivity.
      - intros [H | [names [w2 [H _]]]]; [inversion H; reflexivity | discriminate H]. }
  rewrite (bind_ok _ G).
  destruct (existsb (str_eqb qdrant_collection) names) eqn:E; cbn [negb].
  - change (bind (ret tt) ?k w1) with (k tt w1). cbv beta.
    destruct (ensure_indexes_returns [lit "clause_type"; lit "contract_type"] w1)
      as [w2 Hi].
    rewrite Hi. split; [discriminate|].
    intros [H | [names' [w3 [H [Hn _]]]]]; [discriminate H|].
    inversion H; subst. exfalso. apply Hn. apply existsb_str_eqb. exact E.
  - assert (Hn : ~ In qdrant_collection names).
    { intros Hin. apply existsb_str_eqb in Hin. congruence. }
    destruct (client_create_collection qdrant_collection EMBEDDING_DIM COSINE w1)
      as [[u|e1] w2] eqn:C.
    + rewrite (bind_ok _ C).
      destruct (ensure_indexes_returns [lit "clause_type"; lit "contract_type"] w2)
        as [w3 Hi].
      rewrite Hi. split; [discriminate|].
      intros [H | [names' [w4 [H [_ H']]]]]; [discriminate H|].
      inversion H; subst. rewrite C in H'. discriminate H'.
    + rewrite (bind_raise _ C). split.
      * intros H. right. exists names, w1. inversion H; subst. auto.
      * intros [H | [names' [w4 [H [_ H']]]]]; [discriminate H|].
        inversion H; subst. rewrite C in H'. inversion H'. reflexivity.
Qed.

(** X16: when the collection is listed, [ensure_collection] does not create
    it: what the creation would do has no part in the outcome. *)
Theorem listed_collection_is_not_created
    (create1 create2 : str -> Z -> Distance -> M World unit)
    (w w1 : World) (names : list str) :
  client_get_collections w = (Ok names, w1) ->
  In qdrant_collection names ->
  ensure_collection qdrant_collection client_get_collections create1
    client_create_payload_index w
  = ensure_collection qdrant_collection client_get_collections create2
      client_create_payload_index w.
Proof.
  intros Hg Hin. unfold ensure_collection.
  rewrite !(bind_ok _ Hg).
  apply existsb_str_eqb in Hin. rewrite Hin. reflexivity.
Qed.

End QdrantFacts.

(* ===================================================================== *)
(** ** Seeding the index *)
(* ===================================================================== *)

(** X17: what is seeded comes back.  The hit made of a seeded point turns
    into a precedent with the clause type, contract type, risk level,
    jurisdiction and text of the raw item; its id is the index of the item,
    and the readable id of the item, stored as "precedent_id", is not read. *)
Theorem seeded_precedent_round_trip (item : RawPrecedent.t) (idx : Z) (emb : list float) :
  precedent_of_hit
    (hit_of_point {| point_id := IdInt idx;
                     point_vector := emb;
                     point_payload := seed_payload item |})
  = Ok (PrecedentClause.make (str_of_int idx)
          (RawPrecedent.clause_type item) (RawPrecedent.text item)
          (RawPrecedent.risk_level item)
          (Some (RawPrecedent.jurisdiction item))
          (Some (RawPrecedent.contract_type item))).
Proof. reflexivity. Qed.

Section SeedFacts.

Variable World : Type.
Variable get_embedding : str -> M World (list float).

Lemma build_points_ok (items : list RawPrecedent.t) (idx : Z)
    (points pts : list PointStruct) (w w' : World) :
  build_points get_embedding items idx points w = (Ok pts, w') ->
  exists new,
    pts = points ++ new
    /\ map point_id new
       = map (fun i => IdInt (idx + Z.of_nat i)) (seq 0 (List.length items))
    /\ map point_payload new = map seed_payload items.
Proof.
  revert idx points w. induction items as [|item items IH]; intros idx points w H;
    simpl in H.
  - inversion H. exists []. rewrite app_nil_r. auto.
  - apply bind_inv_ok in H. destruct H as [emb [w1 [_ H]]].
    apply IH in H. destruct H as [new [-> [Hid Hp]]].
    eexists (_ :: new). rewrite <- app_assoc. split; [reflexivity|].
    simpl. rewrite Hp, Hid, Z.add_0_r. split; [|reflexivity].
    f_equal. rewrite <- seq_shift, map_map.
    apply map_ext. intros i. f_equal. lia.
Qed.

(** X18: when the loop of [main] returns, the points it built are one for
    each raw precedent, in order, numbered 0, 1, 2, ... and each with the
    payload of its item. *)
Theorem seeded_points_are_numbered (items : list RawPrecedent.t)
    (pts : list PointStruct) (w w' : World) :
  build_points get_embedding items 0%Z [] w = (Ok pts, w') ->
  map point_id pts = map (fun i => IdInt (Z.of_nat i)) (seq 0 (List.length items))
  /\ map point_payload pts = map seed_payload items.
Proof.
  intros H. apply build_points_ok in H. destruct H as [new [-> [Hid Hp]]].
  simpl. split; [exact Hid | exact Hp].
Qed.

End SeedFacts.

(* ===================================================================== *)
(** ** The extraction of the contract *)
(* ===================================================================== *)

(** X19: the prompt of the extraction has the length of the contract text,
    cut at 15000 characters, plus the 126 characters of its frame. *)
Theorem extraction_prompt_length (contract_text : str) :
  List.length (build_user_prompt contract_text)
  = Nat.min MAX_CONTRACT_CHARS (List.length contract_text) + 126.
Proof.
  unfold build_user_prompt. generalize MAX_CONTRACT_CHARS. intros m.
  rewrite !length_app, length_firstn.
  change (List.length nl) with 1.
  change (List.length (lit "Contract text:")) with 14.
  change (List.length (lit "<contract>")) with 10.
  change (List.length (lit "</contract>")) with 11.
  change (List.length (lit "Return ONLY the JSON object as described. Do not include any commentary or Markdown."))
    with 84.
  lia.
Qed.

(** X20: what follows the first 15000 characters of the contract text never
    reaches the prompt of the extraction. *)
Theorem extraction_prompt_ignores_the_tail (contract_text more : str) :
  MAX_CONTRACT_CHARS <= List.length contract_text ->
  build_user_prompt (contract_text ++ more) = build_user_prompt contract_text.
Proof.
  intros H. unfold build_user_prompt. generalize dependent MAX_CONTRACT_CHARS.
  intros m H. rewrite firstn_app.
  replace (m - List.length contract_text) with 0 by lia.
  rewrite firstn_O, app_nil_r. reflexivity.
Qed.

Section ExtractionFacts.

Variable World : Type.
Variable call_gemini_json : str -> str -> M World pyval.
Variable new_ExtractedContract : pyval -> result ExtractedContract.t.
Variable str_of_exception : exn -> str.
Variable json_dumps_raw : pyval -> str.

Local Notation extract :=
  (extract_contract (counting_completion call_gemini_json) new_ExtractedContract
     str_of_exception json_dumps_raw).

(** X21: the extraction calls the completion service once or twice, never
    more.  The second call is made exactly when the first call returned a
    value that the contract model refused; the outcome is then that of the
    second call and of the validation of its value, be it an error. *)
Theorem extraction_retries_once (contract_text : str) (w w' : World) (n n' : nat)
    (r : result ExtractedContract.t) :
  extract contract_text (w, n) = (r, (w', n')) ->
  (n' = S n \/ n' = S (S n))
  /\ (n' = S (S n)
      <-> exists raw w1 e,
            call_gemini_json EXTRACTION_SYSTEM (build_user_prompt contract_text) w
            = (Ok raw, w1)
            /\ new_ExtractedContract raw = Raise e)
  /\ (forall raw w1 e,
        call_gemini_json EXTRACTION_SYSTEM (build_user_prompt contract_text) w
        = (Ok raw, w1) ->
        new_ExtractedContract raw = Raise e ->
        (r, w')
        = match call_gemini_json EXTRACTION_SYSTEM
                  (fix_prompt str_of_exception json_dumps_raw e raw) w1 with
          | (Ok fixed_raw, w2) => (new_ExtractedContract fixed_raw, w2)
          | (Raise e2, w2) => (Raise e2, w2)
          end).
Proof.
  unfold extract_contract, bind, counting_completion, lift, ret. simpl.
  destruct (call_gemini_json EXTRACTION_SYSTEM (build_user_prompt contract_text) w)
    as [[raw|e0] w1].
  2:{ intros H. inversion H; subst. split; [auto|]. split.
      - split; [intros E; exfalso; lia | intros [? [? [? [E _]]]]; discriminate E].
      - intros ? ? ? E. discriminate E. }
  destruct (new_ExtractedContract raw) as [x|e] eqn:V.
  - intros H. inversion H; subst. split; [auto|]. split.
    + split; [intros E; exfalso; lia|].
      intros [raw' [w2 [e [E V']]]]. inversion E; subst. congruence.
    + intros raw' w2 e E V'. inversion E; subst. congruence.
  - simpl.
    destruct (call_gemini_json EXTRACTION_SYSTEM
                (fix_prompt str_of_exception json_dumps_raw e raw) w1)
      as [[fixed|e2] w2] eqn:C; intros H; inversion H; subst;
      (split; [auto|]); (split; [split; [intros _; exists raw, w1, e; auto | reflexivity]|]);
      intros raw' w3 e' E V'; inversion E; subst; rewrite V in V'; inversion V'; subst;
      rewrite C; reflexivity.
Qed.

End ExtractionFacts.

(* ===================================================================== *)
(** ** The report *)
(* ===================================================================== *)

Lemma clause_summaries_have_no_date (clause_analyses : list ClauseAnalysis.t) :
  has_date (VList (map clause_summary clause_analyses)) = false.
Proof.
  simpl. induction clause_analyses as [|c cs IH]; simpl; [reflexivity | exact IH].
Qed.

(** The effective date is the one place of a dumped contract for a date. *)
Lemma model_dump_has_date (x : ExtractedContract.t) :
  has_date (model_dump x) = true <-> ExtractedContract.effective_date x <> None.
Proof.
  assert (P : existsb has_date (map VStr (ExtractedContract.parties x)) = false).
  { induction (ExtractedContract.parties x) as [|p ps IH]; simpl; [reflexivity | exact IH]. }
  assert (C : existsb has_date (map dump_clause (ExtractedContract.clauses x)) = false).
  { induction (ExtractedContract.clauses x) as [|c cs IH]; simpl; [reflexivity|].
    rewrite IH. destruct (Clause.start_char c), (Clause.end_char c); reflexivity. }
  unfold model_dump. cbn [has_date existsb snd]. rewrite P, C.
  destruct (ExtractedContract.effective_date x) as [d|],
           (ExtractedContract.term_months x), (ExtractedContract.auto_renewal x),
           (ExtractedContract.governing_law x), (ExtractedContract.contract_type x);
    simpl; split; intros; congruence.
Qed.

Section ReportFacts.

Variable World : Type.
Variable call_gemini_json : str -> str -> M World pyval.
Variable json_text : dumpval -> str.

Local Notation report := (build_contract_analysis call_gemini_json json_text).

(** X22: a contract whose effective date was extracted cannot be reported
    on: the dump of the contract holds a date object, [json.dumps] raises a
    TypeError on it, and the report fails before the completion service is
    called, whatever the clause analyses are. *)
Theorem dated_contract_breaks_the_report (extracted : ExtractedContract.t)
    (clause_analyses : list ClauseAnalysis.t) (d : date) (w : World) :
  ExtractedContract.effective_date extracted = Some d ->
  report extracted clause_analyses w = (Raise TypeError, w).
Proof.
  intros H. unfold build_contract_analysis, bind, lift, json_dumps.
  replace (has_date (model_dump extracted)) with true; [reflexivity|].
  symmetry. apply model_dump_has_date. rewrite H. discriminate.
Qed.

(** What a returned report says about its run. *)
Lemma build_contract_analysis_inv (extracted : ExtractedContract.t)
    (clause_analyses : list ClauseAnalysis.t) (w w' : World) (r : ContractAnalysis.t) :
  report extracted clause_analyses w = (Ok r, w') ->
  ExtractedContract.effective_date extracted = None
  /\ ContractAnalysis.clauses r = clause_analyses
  /\ exists d,
       call_gemini_json SUMMARY_SYSTEM
         (report_prompt (json_text (model_dump extracted))
            (json_text (VList (map clause_summary clause_analyses)))) w
       = (Ok (PDict d), w')
       /\ dict_get d (lit "summary") (PStr []) = PStr (ContractAnalysis.summary r)
       /\ dict_get d (lit "key_terms") (PDict []) = PDict (ContractAnalysis.key_terms r).
Proof.
  unfold build_contract_analysis, json_dumps. intros H.
  rewrite clause_summaries_have_no_date in H.
  destruct (has_date (model_dump extracted)) eqn:D.
  { unfold bind, lift in H. discriminate H. }
  split.
  { destruct (ExtractedContract.effective_date extracted) as [d|] eqn:E; [|reflexivity].
    exfalso. assert (T : has_date (model_dump extracted) = true).
    { apply model_dump_has_date. rewrite E. discriminate. }
    congruence. }
  unfold bind at 1 2 in H. unfold lift at 1 2 in H.
  apply bind_inv_ok in H. destruct H as [raw [w1 [Hc H]]].
  destruct raw as [| | | | | |d]; try (unfold bind, lift, get_method in H; discriminate H).
  unfold bind, lift, get_method, new_ContractAnalysis in H.
  destruct (dict_get d (lit "summary") (PStr [])) as [| | | |s| |] eqn:S; try discriminate H.
  destruct (dict_get d (lit "key_terms") (PDict [])) as [| | | | | |kt] eqn:K;
    try discriminate H.
  inversion H; subst. simpl. split; [reflexivity|].
  exists d. auto.
Qed.

(** X23: a report that is returned is about a contract without effective
    date; it carries the clause analyses it was given, unchanged and in
    order; its summary and key terms are those of an object that the
    completion service answered, an absent "summary" standing for the empty
    string and an absent "key_terms" for the empty dict. *)
Theorem report_comes_from_response (extracted : ExtractedContract.t)
    (clause_analyses : list ClauseAnalysis.t) (w w' : World) (r : ContractAnalysis.t) :
  report extracted clause_analyses w = (Ok r, w') ->
  ExtractedContract.effective_date extracted = None
  /\ ContractAnalysis.clauses r = clause_analyses
  /\ exists d,
       call_gemini_json SUMMARY_SYSTEM
         (report_prompt (json_text (model_dump extracted))
            (json_text (VList (map clause_summary clause_analyses)))) w
       = (Ok (PDict d), w')
       /\ dict_get d (lit "summary") (PStr []) = PStr (ContractAnalysis.summary r)
       /\ dict_get d (lit "key_terms") (PDict []) = PDict (ContractAnalysis.key_terms r).
Proof. apply build_contract_analysis_inv. Qed.

End ReportFacts.

(* ===================================================================== *)
(** ** The endpoint *)
(* ===================================================================== *)

Section AnalyzeFacts.

Variable World : Type.
Variable UploadFile : Type.
Variable extract_contract_text : UploadFile -> M World str.
Variable lower : str -> str.
Variable get_embedding : str -> M World (list float).
Variable search_precedents : list float -> str -> str -> Z -> M World (list ScoredPoint).
Variable call_gemini_json : str -> str -> M World pyval.
Variable new_ExtractedContract : pyval -> result ExtractedContract.t.
Variable str_of_exception : exn -> str.
Variable json_dumps_raw : pyval -> str.
Variable json_text : dumpval -> str.

Local Notation endpoint :=
  (analyze extract_contract_text lower get_embedding search_precedents call_gemini_json
     new_ExtractedContract str_of_exception json_dumps_raw json_text).

(** X24: a response of the endpoint is about a contract for which no
    effective date was extracted.  Its clause analyses are those of the
    clauses of the extracted contract, analysed under the contract type that
    was extracted, or under the one of the request when none (or an empty
    one) was extracted. *)
Theorem analyze_returns_undated_contracts (file : UploadFile)
    (contract_type risk_profile : str) (w w' : World) (response : AnalyzeResponse.t) :
  endpoint file contract_type risk_profile w = (Ok response, w') ->
  exists raw_text w1 extracted w2 clause_analyses w3,
    extract_contract_text file w = (Ok raw_text, w1)
    /\ extract_contract call_gemini_json new_ExtractedContract str_of_exception
         json_dumps_raw raw_text w1 = (Ok extracted, w2)
    /\ ExtractedContract.effective_date extracted = None
    /\ analyse_clauses lower get_embedding search_precedents call_gemini_json
         (ExtractedContract.clauses extracted)
         (or_str (ExtractedContract.contract_type extracted) contract_type)
         risk_profile w2
       = (Ok clause_analyses, w3)
    /\ ContractAnalysis.clauses (AnalyzeResponse.analysis response) = clause_analyses.
Proof.
  unfold analyze. intros H.
  apply bind_inv_ok in H. destruct H as [raw_text [w1 [H1 H]]].
  apply bind_inv_ok in H. destruct H as [extracted [w2 [H2 H]]].
  apply bind_inv_ok in H. destruct H as [cas [w3 [H3 H]]].
  apply bind_inv_ok in H. destruct H as [rep [w4 [H4 H]]].
  unfold ret in H. inversion H; subst.
  apply build_contract_analysis_inv in H4. destruct H4 as [Hd [Hc _]].
  exists raw_text, w1, extracted, w2, cas, w3. simpl. auto.
Qed.

End AnalyzeFacts.

(* ===================================================================== *)
(** ** These theorems at work on the sample worlds *)
(* ===================================================================== *)

Lemma other_labels_are_amber_witness :
  basic_rules_risk ascii_lower ip_clause (playbook_for (lit "ip")) conservative = AMBER.
Proof.
  apply other_labels_are_amber; discriminate.
Defined.

Lemma tier_inversion_witness :
  Clause.label governing_law_clause = lit "governing_law"
  /\ Substring (lit "england") (ascii_lower (Clause.raw_text governing_law_clause))
  /\ Substring (lit "wales") (ascii_lower (Clause.raw_text governing_law_clause)).
Proof.
  apply (proj1 (tier_inversion ascii_lower governing_law_clause [] conservative)).
  vm_compute. reflexivity.
Defined.

Lemma missing_payload_fields_default_witness :
  precedent_of_hit {| hit_id := IdStr (lit "7f1c"); payload := None |}
  = Ok (PrecedentClause.make (lit "7f1c") [] [] [] None None).
Proof.
  apply (missing_payload_fields_default {| hit_id := IdStr (lit "7f1c"); payload := None |}).
  intros k _. reflexivity.
Defined.

Lemma retrieval_keeps_the_hits_witness :
  exists emb w1 hits,
    constant_embedding [] (lit "text") 0 = (Ok emb, w1)
    /\ constant_search [sample_hit; sample_hit] emb (lit "governing_law") saas 3%Z w1
       = (Ok hits, 2)
    /\ Forall2 (fun h p => precedent_of_hit h = Ok p) hits [sample_precedent; sample_precedent]
    /\ map PrecedentClause.id [sample_precedent; sample_precedent]
       = map (fun h => str_of_id (hit_id h)) hits
    /\ List.length [sample_precedent; sample_precedent] = List.length hits.
Proof.
  apply (retrieval_keeps_the_hits nat (constant_embedding [])
           (constant_search [sample_hit; sample_hit])
           (lit "text") (lit "governing_law") saas 3%Z 0 2).
  vm_compute. reflexivity.
Defined.

Lemma invalid_hit_fails_retrieval_witness :
  get_precedents_for_clause (constant_embedding []) (constant_search [sample_hit; bad_hit])
    (lit "text") (lit "governing_law") saas 3%Z 0
  = (Raise (ValidationError (lit "PrecedentClause")), 2).
Proof.
  apply (invalid_hit_fails_retrieval nat (constant_embedding [])
           (constant_search [sample_hit; bad_hit])
           (lit "text") (lit "governing_law") saas 3%Z 0 1 2 [] [sample_hit; bad_hit]
           bad_hit (ValidationError (lit "PrecedentClause"))).
  - reflexivity.
  - reflexivity.
  - simpl. auto.
  - reflexivity.
Defined.

Lemma prompt_lists_every_precedent_witness :
  Substring (lit "- [" ++ lit "medium" ++ lit "] "
             ++ lit "governed by the laws of the State of New York")
    (user_prompt governing_law_clause conservative
       (basic_rules_risk ascii_lower governing_law_clause
          (playbook_for (Clause.label governing_law_clause)) conservative)
       (playbook_for (Clause.label governing_law_clause))
       (precedents_text [sample_precedent])).
Proof.
  apply (prompt_lists_every_precedent ascii_lower governing_law_clause conservative
           [sample_precedent] sample_precedent).
  simpl. auto.
Defined.

Lemma verdict_comes_from_response_witness :
  empty_index_analyse governing_law_clause saas conservative 0
  = (Ok governing_law_verdict, 3)
  /\ ClauseAnalysis.clause_label governing_law_verdict = Clause.label governing_law_clause.
Proof.
  assert (H : empty_index_analyse governing_law_clause saas conservative 0
              = (Ok governing_law_verdict, 3)) by (vm_compute; reflexivity).
  split; [exact H|].
  destruct (verdict_comes_from_response nat ascii_lower (constant_embedding [])
              (constant_search []) (constant_completion sample_response)
              governing_law_clause saas conservative 0 3 governing_law_verdict H)
    as [ps [w1 [d [_ [_ [L _]]]]]].
  exact L.
Defined.

Lemma non_object_response_raises_witness :
  analyse_clause ascii_lower (constant_embedding []) (constant_search [])
    (constant_completion (PList [])) governing_law_clause saas conservative 0
  = (Raise TypeError, 3).
Proof.
  apply (non_object_response_raises nat ascii_lower (constant_embedding [])
           (constant_search []) (constant_completion (PList []))
           governing_law_clause saas conservative 0 2 3 [] (PList [])).
  - reflexivity.
  - reflexivity.
  - discriminate.
Defined.

Lemma wrongly_typed_response_raises_witness :
  analyse_clause ascii_lower (constant_embedding []) (constant_search [])
    (constant_completion response_with_null_snippets) liability_clause saas conservative 0
  = (Raise (ValidationError (lit "ClauseAnalysis")), 3).
Proof.
  apply (wrongly_typed_response_raises nat ascii_lower (constant_embedding [])
           (constant_search []) (constant_completion response_with_null_snippets)
           liability_clause saas conservative 0 2 3 []
           [ (lit "risk_level", PStr (lit "RED"));
             (lit "explanation", PStr (lit "No cap."));
             (lit "suggested_text", PStr (lit "Liability shall not exceed the Fees."));
             (lit "precedent_snippets", PNone) ]
           (PStr (lit "RED")) (PStr (lit "No cap."))
           (PStr (lit "Liability shall not exceed the Fees."))).
  - reflexivity.
  - reflexivity.
  - reflexivity.
  - reflexivity.
  - reflexivity.
  - right. right. right. exists PNone. split; reflexivity.
Defined.

Lemma untracked_batch_is_silent_witness :
  flaky_batch [ip_clause; ip_clause] saas conservative 7 = (Ok [], 7).
Proof.
  apply (untracked_batch_is_silent nat ascii_lower (constant_embedding [])
           (constant_search [sample_hit]) flaky_completion).
  intros c [<- | [<- | []]]; reflexivity.
Defined.

Lemma service_calls_of_a_batch_witness :
  counted_flaky_batch [ip_clause; governing_law_clause; termination_clause; liability_clause]
    saas conservative (0, no_calls)
  = (Raise service_failure,
     (6, {| embedding_calls := 2; search_calls := 2; completion_calls := 2 |}))
  /\ 0 <= 2 <= 0 + 3.
Proof.
  assert (H : counted_flaky_batch
                [ip_clause; governing_law_clause; termination_clause; liability_clause]
                saas conservative (0, no_calls)
              = (Raise service_failure,
                 (6, {| embedding_calls := 2; search_calls := 2; completion_calls := 2 |})))
    by (vm_compute; reflexivity).
  split; [exact H|].
  exact (proj1 (service_calls_of_a_batch nat ascii_lower (constant_embedding [])
                  (constant_search [sample_hit]) flaky_completion
                  [ip_clause; governing_law_clause; termination_clause; liability_clause]
                  saas conservative 0 6 no_calls
                  {| embedding_calls := 2; search_calls := 2; completion_calls := 2 |}
                  (Raise service_failure) H)).
Defined.

Lemma list_embedding_under_data_is_refused_witness :
  embedding_of_response (PList [PDict [(lit "embedding", PList [PInt 1; PInt 0])]])
  = inl (PList [PInt 1; PInt 0])
  /\ embedding_of_response
       (PDict [(lit "data", PList [PDict [(lit "embedding", PList [PInt 1; PInt 0])]])])
     = inr UnexpectedDictFormat.
Proof.
  destruct (list_embedding_under_data_is_refused
              [(lit "embedding", PList [PInt 1; PInt 0])] [PInt 1; PInt 0] [] eq_refl)
    as [H1 H2].
  split; [exact H1|]. apply H2; reflexivity.
Defined.

Lemma listed_collection_is_not_created_witness :
  ensure_collection (lit "contract_precedents") listing_collections creating_collection
    failing_index 0
  = ensure_collection (lit "contract_precedents") listing_collections failing_creation
      failing_index 0.
Proof.
  apply (listed_collection_is_not_created nat (lit "contract_precedents")
           listing_collections failing_index creating_collection failing_creation
           0 1 [lit "contract_precedents"]).
  - reflexivity.
  - simpl. auto.
Defined.

Lemma seeded_points_are_numbered_witness :
  map point_id
    [ {| point_id := IdInt 0; point_vector := [];
         point_payload := seed_payload (nth 0 two_raw_precedents
                                          (RawPrecedent.make [] [] [] [] [] [])) |};
      {| point_id := IdInt 1; point_vector := [];
         point_payload := seed_payload (nth 1 two_raw_precedents
                                          (RawPrecedent.make [] [] [] [] [] [])) |} ]
  = map (fun i => IdInt (Z.of_nat i)) (seq 0 (List.length two_raw_precedents)).
Proof.
  apply (seeded_points_are_numbered nat (constant_embedding []) two_raw_precedents _ 0 2).
  reflexivity.
Defined.

Lemma extraction_prompt_ignores_the_tail_witness :
  build_user_prompt (long_text ++ lit "Clause 99: liability is unlimited.")
  = build_user_prompt long_text.
Proof.
  apply extraction_prompt_ignores_the_tail.
  apply Nat.leb_le. vm_compute. reflexivity.
Defined.

Lemma extraction_retries_once_witness :
  extract_contract (counting_completion (constant_completion (PList []))) refusing_model
    sample_str_of_exception sample_json_dumps_raw (lit "contract") (0, 0)
  = (Raise (ValidationError (lit "ExtractedContract")), (2, 2))
  /\ (2 = 1 \/ 2 = 2).
Proof.
  assert (H : extract_contract (counting_completion (constant_completion (PList [])))
                refusing_model sample_str_of_exception sample_json_dumps_raw
                (lit "contract") (0, 0)
              = (Raise (ValidationError (lit "ExtractedContract")), (2, 2)))
    by (vm_compute; reflexivity).
  split; [exact H|].
  exact (proj1 (extraction_retries_once nat (constant_completion (PList []))
                  refusing_model sample_str_of_exception sample_json_dumps_raw
                  (lit "contract") 0 2 0 2 _ H)).
Defined.

Lemma dated_contract_breaks_the_report_witness :
  build_contract_analysis (constant_completion sample_response) sample_json_text
    dated_contract [governing_law_verdict] 0
  = (Raise TypeError, 0).
Proof.
  apply (dated_contract_breaks_the_report nat (constant_completion sample_response)
           sample_json_text dated_contract [governing_law_verdict]
           {| year := 2024; month := 1; day := 31 |}).
  reflexivity.
Defined.

Lemma report_comes_from_response_witness :
  ExtractedContract.effective_date undated_contract = None
  /\ ContractAnalysis.clauses sample_report = [governing_law_verdict]
  /\ exists d,
       constant_completion sample_response SUMMARY_SYSTEM
         (report_prompt (sample_json_text (model_dump undated_contract))
            (sample_json_text (VList (map clause_summary [governing_law_verdict])))) 0
       = (Ok (PDict d), 1)
       /\ dict_get d (lit "summary") (PStr []) = PStr (ContractAnalysis.summary sample_report)
       /\ dict_get d (lit "key_terms") (PDict [])
          = PDict (ContractAnalysis.key_terms sample_report).
Proof.
  apply (report_comes_from_response nat (constant_completion sample_response)
           sample_json_text undated_contract [governing_law_verdict] 0 1 sample_report).
  vm_compute. reflexivity.
Defined.

Lemma analyze_returns_undated_contracts_witness :
  sample_endpoint tt (lit "services") conservative 0
  = (Ok (AnalyzeResponse.make sample_report), 6)
  /\ exists raw_text w1 extracted w2 clause_analyses w3,
       reading_upload tt 0 = (Ok raw_text, w1)
       /\ extract_contract (constant_completion sample_response) accepting_model
            sample_str_of_exception sample_json_dumps_raw raw_text w1
          = (Ok extracted, w2)
       /\ ExtractedContract.effective_date extracted = None
       /\ analyse_clauses ascii_lower (constant_embedding []) (constant_search [sample_hit])
            (constant_completion sample_response)
            (ExtractedContract.clauses extracted)
            (or_str (ExtractedContract.contract_type extracted) (lit "services"))
            conservative w2
          = (Ok clause_analyses, w3)
       /\ ContractAnalysis.clauses
            (AnalyzeResponse.analysis (AnalyzeResponse.make sample_report))
          = clause_analyses.
Proof.
  assert (H : sample_endpoint tt (lit "services") conservative 0
              = (Ok (AnalyzeResponse.make sample_report), 6))
    by (vm_compute; reflexivity).
  split; [exact H|].
  exact (analyze_returns_undated_contracts nat unit reading_upload ascii_lower
           (constant_embedding []) (constant_search [sample_hit])
           (constant_completion sample_response) accepting_model
           sample_str_of_exception sample_json_dumps_raw sample_json_text
           tt (lit "services") conservative 0 6 (AnalyzeResponse.make sample_report) H).
Defined.
